(** * LexOS glue layers: inference server, dialogue actions, deployment script

    A shallow embedding of the three Python scripts of the repository

      - [h100-inference-server.py]        (module [Server]),
      - [rasa/actions/actions.py]         (module [Actions]),
      - [server/src/deploy-vision-models.py] (module [Deploy]),

    over a small model of the Python values they handle (module [Py]). *)

From Stdlib Require Import ZArith Floats.SpecFloat.
From stdpp Require Import base option list strings gmap fin_maps pretty.

Local Open Scope string_scope.
Local Open Scope Z_scope.

(** ** Python values and the string methods the scripts call *)

Module Py.

(** The values that reach the scripts: what [json.loads] produces and what
    slots and messages hold.  A [str] is kept as its UTF-8 bytes, a [float] as
    its IEEE-754 datum, a [dict] with string keys as a finite map. *)
#[local] Set Warnings "-register-all".
Inductive pyval : Type :=
  | PNone
  | PBool (b : bool)
  | PInt (n : Z)
  | PFloat (f : spec_float)
  | PStr (s : string)
  | PList (l : list pyval)
  | PDict (d : gmap string pyval).

(** [bool(v)] / the test of an [if v:] and of [not v]. *)
Definition truthy (v : pyval) : bool :=
  match v with
  | PNone => false
  | PBool b => b
  | PInt n => negb (n =? 0)
  | PFloat (S754_zero _) => false
  | PFloat _ => true
  | PStr s => negb (String.eqb s "")
  | PList l => match l with [] => false | _ => true end
  | PDict d => negb (bool_decide (d = ∅))
  end.

(** What [json.dumps(v, allow_nan=False)] accepts: a value that holds no NaN
    and no infinity, at any depth. *)
Fixpoint finite_json (v : pyval) : bool :=
  match v with
  | PFloat (S754_infinity _) | PFloat S754_nan => false
  | PList l => forallb finite_json l
  | PDict d => map_fold (fun _ x acc => finite_json x && acc) true d
  | _ => true
  end.

(** [d.get(key, default)] on a dict. *)
Definition dict_get (d : gmap string pyval) (key : string) (default : pyval) : pyval :=
  match d !! key with
  | Some v => v
  | None => default
  end.

(** What the interpreter supplies and the scripts only call: [str()] of the
    values whose text is not fixed by a short rule (floats and containers),
    and [str.lower], which follows the Unicode case tables. *)
Class Runtime := {
  str_of_compound : pyval -> string;
  str_lower : string -> string
}.

(** [str(v)], as an f-string field [{v}] renders it. *)
Definition format_value `{Runtime} (v : pyval) : string :=
  match v with
  | PStr s => s
  | PNone => "None"
  | PBool true => "True"
  | PBool false => "False"
  | PInt n => pretty n
  | PFloat _ | PList _ | PDict _ => str_of_compound v
  end.

(** A runtime to evaluate the model on examples: lower-casing of the ASCII
    letters, and a placeholder for the text of floats and containers. *)
Definition ascii_lower (s : string) : string :=
  String.string_of_list_ascii
    (map (fun c => let n := Ascii.N_of_ascii c in
                   if ((65 <=? n) && (n <=? 90))%N then Ascii.ascii_of_N (n + 32) else c)
         (String.list_ascii_of_string s)).

Definition example_runtime : Runtime :=
  {| str_of_compound := fun _ => "<object>"; str_lower := ascii_lower |}.

(** *** Characters *)

(** [str.startswith(prefix)]. *)
Fixpoint startswith (prefix s : string) : bool :=
  match prefix, s with
  | EmptyString, _ => true
  | String a p, String b t => if Ascii.eqb a b then startswith p t else false
  | String _ _, EmptyString => false
  end.

(** Number of bytes of the white-space character that starts [s], [0] when
    [s] does not start with one.  The white-space characters of [str.split]
    and [str.strip] are U+0009..U+000D, U+001C..U+0020, U+0085, U+00A0,
    U+1680, U+2000..U+200A, U+2028, U+2029, U+202F, U+205F and U+3000. *)
Definition space_len (s : string) : nat :=
  match map Ascii.N_of_ascii (String.list_ascii_of_string s) with
  | b :: rest =>
      if ((9 <=? b) && (b <=? 13) || (28 <=? b) && (b <=? 32))%N then 1%nat
      else match b, rest with
           | 194%N, c :: _ => if ((c =? 133) || (c =? 160))%N then 2%nat else 0%nat
           | 225%N, 154%N :: 128%N :: _ => 3%nat
           | 226%N, 128%N :: c :: _ =>
               if ((128 <=? c) && (c <=? 138) || (c =? 168) || (c =? 169) || (c =? 175))%N
               then 3%nat else 0%nat
           | 226%N, 129%N :: 159%N :: _ => 3%nat
           | 227%N, 128%N :: 128%N :: _ => 3%nat
           | _, _ => 0%nat
           end
  | [] => 0%nat
  end.

(** A string cut into white-space characters ([true], with their bytes) and
    the other bytes ([false], one byte each). *)
Fixpoint chars_from (skip : nat) (s : string) : list (bool * string) :=
  match s with
  | EmptyString => []
  | String c t =>
      match skip with
      | S k => chars_from k t
      | O =>
          match space_len s with
          | O => (false, String c EmptyString) :: chars_from O t
          | S k => (true, String.substring O (S k) s) :: chars_from k t
          end
      end
  end.

Definition chars (s : string) : list (bool * string) := chars_from O s.

Definition join_chars (l : list (bool * string)) : string :=
  fold_right (fun c acc => String.append c.2 acc) EmptyString l.

(** [s.split()]: the maximal runs of characters that are not white space. *)
Fixpoint split_chars (cur : string) (l : list (bool * string)) : list string :=
  match l with
  | [] => if String.eqb cur "" then [] else [cur]
  | (true, _) :: t =>
      if String.eqb cur "" then split_chars "" t else cur :: split_chars "" t
  | (false, c) :: t => split_chars (String.append cur c) t
  end.

Definition split (s : string) : list string := split_chars "" (chars s).

Fixpoint lstrip_chars (l : list (bool * string)) : list (bool * string) :=
  match l with
  | (true, _) :: t => lstrip_chars t
  | _ => l
  end.

(** [s.strip()]. *)
Definition strip (s : string) : string :=
  join_chars (rev (lstrip_chars (rev (lstrip_chars (chars s))))).

(** [s.replace(old, new)]: the occurrences of [old] are replaced from left to
    right, without overlap; an empty [old] matches before every character and
    at the end. *)
Fixpoint replace_from (skip : nat) (old new s : string) : string :=
  match s with
  | EmptyString => EmptyString
  | String c t =>
      match skip with
      | S k => replace_from k old new t
      | O =>
          if startswith old s
          then String.append new (replace_from (Nat.pred (String.length old)) old new t)
          else String c (replace_from O old new t)
      end
  end.

Fixpoint intersperse (new s : string) : string :=
  match s with
  | EmptyString => new
  | String c t => String.append new (String c (intersperse new t))
  end.

Definition replace (old new s : string) : string :=
  if String.eqb old "" then intersperse new s else replace_from O old new s.

End Py.

(** ** Effects: state passing with exceptions *)

Module Eff.

(** Outcome of a Python call: it returns a value or raises.  The exceptions of
    the model are the ones a call raises by itself, all of which derive from
    [Exception]; signals delivered from outside ([KeyboardInterrupt]) are not
    represented. *)
Inductive result (E A : Type) : Type :=
  | Ok (a : A)
  | Raise (e : E).
Arguments Ok {E A} a.
Arguments Raise {E A} e.

(** A computation over a store [S] that may raise an [E]. *)
Definition M (S E A : Type) : Type := S -> S * result E A.

Section Ops.
Context {S E : Type}.

Definition ret {A} (a : A) : M S E A := fun s => (s, Ok a).

Definition bind {A B} (c : M S E A) (k : A -> M S E B) : M S E B :=
  fun s =>
    match c s with
    | (s', Ok a) => k a s'
    | (s', Raise e) => (s', Raise e)
    end.

Definition raise {A} (e : E) : M S E A := fun s => (s, Raise e).

(** A call whose outcome is already known. *)
Definition lift {A} (r : result E A) : M S E A := fun s => (s, r).

(** [try: c / except: h]; the effects of [c] up to the raise are kept. *)
Definition try_except {A} (c : M S E A) (h : E -> M S E A) : M S E A :=
  fun s =>
    match c s with
    | (s', Ok a) => (s', Ok a)
    | (s', Raise e) => h e s'
    end.

Definition get : M S E S := fun s => (s, Ok s).

Definition modify (f : S -> S) : M S E unit := fun s => (f s, Ok tt).

(** [for x in l: body x]. *)
Fixpoint for_each {A} (l : list A) (body : A -> M S E unit) : M S E unit :=
  match l with
  | [] => ret tt
  | x :: t => bind (body x) (fun _ => for_each t body)
  end.
End Ops.

Module Notations.
  Declare Scope eff_scope.
  Delimit Scope eff_scope with eff.
  Notation "x <- c ;; k" := (bind c (fun x => k))
    (at level 100, c at next level, right associativity) : eff_scope.
  Notation "c ;; k" := (bind c (fun _ => k))
    (at level 100, right associativity) : eff_scope.
End Notations.

End Eff.

(** ** The inference server, [h100-inference-server.py] *)

Module Server.
Import Py Eff Eff.Notations.

Inductive exn : Type :=
  | HTTPException   (* [request.json] on a body that is not JSON *)
  | AttributeError. (* a method looked up on a value that lacks it *)

(** *** Start-up: accelerator detection and model loading *)

Inductive level : Type := LInfo | LWarning | LError.

(** What [import torch] finds. *)
Inductive torch : Type :=
  | TorchMissing
  | TorchPresent (cuda_is_available : bool) (device_name cuda_version : string).

(** The module-level names the handlers read. *)
Record globals : Type := {
  GPU_AVAILABLE : bool;
  TEXT_MODELS : gmap string pyval;
  IMAGE_MODELS : gmap string pyval
}.

Definition detect_gpu (t : torch) : bool * list (level * string) :=
  match t with
  | TorchPresent true name version =>
      (true, [(LInfo, "GPU detected: " +:+ name);
              (LInfo, "CUDA version: " +:+ version)])
  | TorchPresent false _ _ =>
      (false, [(LWarning, "No GPU detected - will use CPU (very slow)")])
  | TorchMissing =>
      (false, [(LError, "PyTorch not installed - GPU support unavailable")])
  end.

Definition load_text_models (gpu_available : bool)
  : gmap string pyval * list (level * string) :=
  let models := ∅ in
  if gpu_available
  then (models, [(LInfo, "Loading text models on GPU...")])
  else (models, [(LWarning, "No GPU - text models not loaded")]).

Definition load_image_models (gpu_available : bool)
  : gmap string pyval * list (level * string) :=
  let models := ∅ in
  if gpu_available
  then (models, [(LInfo, "Loading image models on GPU...")])
  else (models, [(LWarning, "No GPU - image models not loaded")]).

(** The module body up to the route definitions. *)
Definition startup (t : torch) : globals * list (level * string) :=
  let '(gpu, log0) := detect_gpu t in
  let '(text, log1) := load_text_models gpu in
  let '(image, log2) := load_image_models gpu in
  ({| GPU_AVAILABLE := gpu; TEXT_MODELS := text; IMAGE_MODELS := image |},
   (log0 ++ log1 ++ log2)%list).

(** *** Requests and handlers *)

(** The body of a request as [request.json] sees it. *)
Inductive body : Type :=
  | NotJson            (* no JSON content type, or bytes that do not parse *)
  | Json (v : pyval).

Definition request_json (b : body) : result exn pyval :=
  match b with
  | NotJson => Raise HTTPException
  | Json v => Ok v
  end.

(** [data.get(key, default)]; only a dict has the method. *)
Definition call_get (data : pyval) (key : string) (default : pyval) : result exn pyval :=
  match data with
  | PDict d => Ok (dict_get d key default)
  | _ => Raise AttributeError
  end.

(** [prompt.split()]; only a str has the method. *)
Definition call_split (prompt : pyval) : result exn (list string) :=
  match prompt with
  | PStr s => Ok (split s)
  | _ => Raise AttributeError
  end.

(** [a or b]. *)
Definition py_or (a b : pyval) : pyval := if truthy a then a else b.

(** [list(d.keys())]; the order is the map's enumeration order. *)
Definition dict_keys (d : gmap string pyval) : list pyval :=
  PStr <$> (map_to_list d).*1.

(** The JSON object handed to [jsonify]. *)
Abbreviation response := (gmap string pyval).

(** A handler runs over the module globals. *)
Abbreviation handler := (M globals exn response).

Section Handlers.
Context `{Runtime}.
Local Open Scope eff_scope.

Definition health : handler :=
  g <- get ;;
  ret {[ "status" := PStr "ok";
         "gpu_available" := PBool (GPU_AVAILABLE g);
         "models_loaded" :=
           PBool (truthy (py_or (PDict (TEXT_MODELS g)) (PDict (IMAGE_MODELS g)))) ]}.

(** The two [return] statements of [generate_text]. *)
Definition mock_text_response (prompt model : pyval) : result exn response :=
  let text := "[Mock H100 Response] I would generate text for: '"
              +:+ format_value prompt +:+ "' using model " +:+ format_value model in
  match call_split prompt with
  | Ok words =>
      Ok {[ "text" := PStr text;
            "tokens_used" := PInt (Z.of_nat (length words) * 2);
            "model" := model;
            "gpu_used" := PBool false ]}
  | Raise e => Raise e
  end.

Definition real_text_response (prompt model max_tokens : pyval) : response :=
  {[ "text" := PStr ("Generated response for: " +:+ format_value prompt);
     "tokens_used" := max_tokens;
     "model" := model;
     "gpu_used" := PBool true ]}.

Definition generate_text (b : body) : handler :=
  data <- lift (request_json b) ;;
  prompt <- lift (call_get data "prompt" (PStr "")) ;;
  model <- lift (call_get data "model" (PStr "default")) ;;
  max_tokens <- lift (call_get data "max_tokens" (PInt 1000)) ;;
  g <- get ;;
  if negb (GPU_AVAILABLE g)
  then lift (mock_text_response prompt model)
  else ret (real_text_response prompt model max_tokens).

(** The two [return] statements of [generate_image]. *)
Definition mock_image_response (prompt model : pyval) : response :=
  {[ "image_url" :=
       PStr "https://via.placeholder.com/1024x1024/FF6B6B/FFFFFF?text=H100+GPU+Not+Available";
     "prompt" := prompt;
     "model" := model;
     "gpu_used" := PBool false ]}.

Definition real_image_response (prompt model : pyval) : response :=
  {[ "image_url" := PStr "generated_image_url_here";
     "prompt" := prompt;
     "model" := model;
     "gpu_used" := PBool true ]}.

Definition generate_image (b : body) : handler :=
  data <- lift (request_json b) ;;
  prompt <- lift (call_get data "prompt" (PStr "")) ;;
  model <- lift (call_get data "model" (PStr "stable-diffusion-2.1")) ;;
  g <- get ;;
  if negb (GPU_AVAILABLE g)
  then ret (mock_image_response prompt model)
  else ret (real_image_response prompt model).

Definition list_models : handler :=
  g <- get ;;
  ret {[ "text_models" :=
           (if truthy (PDict (TEXT_MODELS g))
            then PList (dict_keys (TEXT_MODELS g))
            else PList [PStr "none_loaded"]);
         "image_models" :=
           (if truthy (PDict (IMAGE_MODELS g))
            then PList (dict_keys (IMAGE_MODELS g))
            else PList [PStr "none_loaded"]);
         "gpu_available" := PBool (GPU_AVAILABLE g) ]}.

(** The route table: the four [@app.route] decorators. *)
Inductive endpoint : Type := Health | Generate | GenerateImage | Models.

Definition route (e : endpoint) : string * string :=
  match e with
  | Health => ("/health", "GET")
  | Generate => ("/generate", "POST")
  | GenerateImage => ("/generate-image", "POST")
  | Models => ("/models", "GET")
  end.

(** The view function of an endpoint; the two [GET] views do not look at
    the request. *)
Definition handle (e : endpoint) (b : body) : handler :=
  match e with
  | Health => health
  | Generate => generate_text b
  | GenerateImage => generate_image b
  | Models => list_models
  end.
End Handlers.

End Server.

(** ** The dialogue actions, [rasa/actions/actions.py] *)

Module Actions.
Import Py Eff Eff.Notations.

Inductive exn : Type :=
  | RequestException  (* [requests.get] / [requests.post] did not complete *)
  | JSONDecodeError   (* [response.json()] on a body that is not JSON *)
  | AttributeError    (* a method looked up on a value that lacks it *)
  | TypeError.        (* [for] over a value that is not iterable *)

(** *** The SDK objects handed to [run] *)

(** [Tracker]: the slots and the latest user message. *)
Record tracker : Type := {
  slots : gmap string pyval;
  latest_message : gmap string pyval
}.

(** [tracker.get_slot(key)]: the slot, [None] when it is not set. *)
Definition get_slot (t : tracker) (key : string) : pyval :=
  dict_get (slots t) key PNone.

Inductive event : Type :=
  | SlotSet (key : string) (value : pyval).

(** What the dialogue engine does with the events an action returns. *)
Definition apply_event (t : tracker) (e : event) : tracker :=
  match e with
  | SlotSet key value =>
      {| slots := <[key := value]> (slots t); latest_message := latest_message t |}
  end.

Definition apply_events (t : tracker) (es : list event) : tracker :=
  fold_left apply_event es t.

(** *** Outbound HTTP *)

Inductive http_method : Type := GET | POST.

Record http_request : Type := {
  req_method : http_method;
  req_url : string;
  req_json : option pyval
}.

(** How the remote end answers: the call raises, or a response arrives with
    its [ok] flag and, when the body parses, the value of [response.json()]. *)
Inductive http_reply : Type :=
  | NoReply
  | Reply (ok : bool) (json : option pyval).

Abbreviation network := (http_request -> http_reply).

(** What an action acts on: the texts handed to the dispatcher, and the
    requests issued, both oldest first. *)
Record world : Type := {
  messages : list pyval;
  requests : list http_request
}.

Definition init_world : world := {| messages := []; requests := [] |}.

Abbreviation act := (M world exn).

(** [dispatcher.utter_message(text=...)]. *)
Definition utter_message (text : pyval) : act unit :=
  modify (fun w => {| messages := messages w ++ [text]; requests := requests w |}).

Definition send (net : network) (r : http_request) : act (bool * option pyval) :=
  fun w =>
    let w' := {| messages := messages w; requests := requests w ++ [r] |} in
    match net r with
    | NoReply => (w', Raise RequestException)
    | Reply ok json => (w', Ok (ok, json))
    end.

Definition requests_get (net : network) (url : string) : act (bool * option pyval) :=
  send net {| req_method := GET; req_url := url; req_json := None |}.

(** [requests.post(url, json=...)] encodes the body before it sends
    anything, and the encoder refuses NaN and the infinities: the call then
    raises (an [InvalidJSONError], which is a [RequestException]) and no
    request leaves. *)
Definition requests_post (net : network) (url : string) (json : pyval)
  : act (bool * option pyval) :=
  if finite_json json
  then send net {| req_method := POST; req_url := url; req_json := Some json |}
  else raise RequestException.

(** [response.json()]. *)
Definition response_json (response : bool * option pyval) : result exn pyval :=
  match response.2 with
  | Some v => Ok v
  | None => Raise JSONDecodeError
  end.

(** *** Value operations *)

Definition call_get (data : pyval) (key : string) (default : pyval) : result exn pyval :=
  match data with
  | PDict d => Ok (dict_get d key default)
  | _ => Raise AttributeError
  end.

Definition is_continuation (c : Ascii.ascii) : bool :=
  let n := Ascii.N_of_ascii c in ((128 <=? n) && (n <? 192))%N.

(** The characters of a str, each with the bytes that encode it. *)
Fixpoint utf8_chars (s : string) : list string :=
  match s with
  | EmptyString => []
  | String c t =>
      match utf8_chars t with
      | String d g :: gs =>
          if is_continuation d then String c (String d g) :: gs
          else String c EmptyString :: String d g :: gs
      | gs => String c EmptyString :: gs
      end
  end.

(** The items a [for] loop draws from a value. *)
Definition iterate (v : pyval) : result exn (list pyval) :=
  match v with
  | PList l => Ok l
  | PDict d => Ok (PStr <$> (map_to_list d).*1)
  | PStr s => Ok (PStr <$> utf8_chars s)
  | PNone | PBool _ | PInt _ | PFloat _ => Raise TypeError
  end.

Definition nl : string := String (Ascii.ascii_of_nat 10) EmptyString.

(** [website_url.startswith(('http://', 'https://'))] and the prefixing that
    follows it. *)
Definition has_protocol (website_url : string) : bool :=
  startswith "http://" website_url || startswith "https://" website_url.

Definition ensure_protocol (website_url : string) : string :=
  if negb (has_protocol website_url) then "https://" +:+ website_url else website_url.

(** *** The actions *)

Inductive action : Type :=
  | ActionCreateTask
  | ActionListTasks
  | ActionBrowseWebsite
  | ActionToggleConversationMode
  | ActionToggleAutoSpeak
  | ActionChangeVoice
  | ActionAIResponse
  | ActionGenerateImage
  | ActionAnalyzeDocument
  | ActionBuildApp.

Definition name (a : action) : string :=
  match a with
  | ActionCreateTask => "action_create_task"
  | ActionListTasks => "action_list_tasks"
  | ActionBrowseWebsite => "action_browse_website"
  | ActionToggleConversationMode => "action_toggle_conversation_mode"
  | ActionToggleAutoSpeak => "action_toggle_auto_speak"
  | ActionChangeVoice => "action_change_voice"
  | ActionAIResponse => "action_ai_response"
  | ActionGenerateImage => "action_generate_image"
  | ActionAnalyzeDocument => "action_analyze_document"
  | ActionBuildApp => "action_build_app"
  end.

Definition tasks_url : string := "http://localhost:3000/api/orchestrator/tasks".
Definition navigate_url : string := "http://localhost:3000/api/browser-agent/navigate".
Definition chat_url : string := "http://localhost:3000/api/ai/chat".

(** The [json=] arguments of the four [requests.post] calls. *)
Definition task_json (task_name : pyval) : pyval :=
  PDict {[ "name" := task_name; "status" := PStr "pending" ]}.

Definition navigate_json (website_url : string) : pyval :=
  PDict {[ "url" := PStr website_url ]}.

Definition chat_json (user_message : pyval) : pyval :=
  PDict {[ "prompt" := user_message;
           "model" := PStr "auto";
           "task_type" := PStr "general";
           "complexity" := PStr "medium";
           "quality" := PStr "standard" ]}.

Definition image_json (prompt : string) : pyval :=
  PDict {[ "prompt" := PStr prompt;
           "task_type" := PStr "image";
           "complexity" := PStr "medium";
           "quality" := PStr "standard" ]}.

Section Run.
Context `{Runtime}.
Variable net : network.
Local Open Scope eff_scope.

Definition create_task_run (t : tracker) : act (list event) :=
  let task_name := get_slot t "task_name" in
  (if truthy task_name then
     try_except
       (response <- requests_post net tasks_url (task_json task_name) ;;
        if response.1
        then utter_message
               (PStr ("✅ Task '" +:+ format_value task_name +:+ "' has been created!"))
        else utter_message (PStr "Sorry, I couldn't create the task. Please try again."))
       (fun _ => utter_message (PStr "I'm having trouble connecting to the task service."))
   else utter_message (PStr "What task would you like me to create?")) ;;
  ret [].

(** One turn of the loop of [ActionListTasks.run]: the line of one task,
    appended to [task_list]. *)
Definition task_line (task_list : string) (task : pyval) : result exn string :=
  match call_get task "completed" PNone with
  | Ok completed =>
      let status := if truthy completed then "✅" else "⏳" in
      match call_get task "name" PNone with
      | Ok task_name =>
          Ok (task_list +:+ status +:+ " " +:+ format_value task_name +:+ nl)
      | Raise e => Raise e
      end
  | Raise e => Raise e
  end.

Fixpoint task_lines (task_list : string) (tasks : list pyval) : result exn string :=
  match tasks with
  | [] => Ok task_list
  | task :: rest =>
      match task_line task_list task with
      | Ok task_list' => task_lines task_list' rest
      | Raise e => Raise e
      end
  end.

Definition list_tasks_run (t : tracker) : act (list event) :=
  try_except
    (response <- requests_get net tasks_url ;;
     if response.1 then
       tasks <- lift (response_json response) ;;
       if truthy tasks then
         items <- lift (iterate tasks) ;;
         task_list <- lift (task_lines ("📋 Your current tasks:" +:+ nl) items) ;;
         utter_message (PStr task_list)
       else
         utter_message
           (PStr "You don't have any tasks yet. Would you like to create one?")
     else ret tt)
    (fun _ => utter_message (PStr "I couldn't retrieve your tasks right now.")) ;;
  ret [].

Definition browse_website_run (t : tracker) : act (list event) :=
  let website_url := get_slot t "website_url" in
  (if truthy website_url then
     website_url <- lift (match website_url with
                          | PStr s => Ok (ensure_protocol s)
                          | _ => Raise AttributeError
                          end) ;;
     try_except
       (response <- requests_post net navigate_url (navigate_json website_url) ;;
        if response.1
        then utter_message
               (PStr ("🌐 I've opened " +:+ website_url
                      +:+ " for you. You can see it in the browser panel."))
        else utter_message (PStr "I had trouble opening that website."))
       (fun _ => utter_message (PStr "The browser service isn't available right now."))
   else utter_message (PStr "Which website would you like me to browse?")) ;;
  ret [].

Definition toggle_conversation_mode_run (t : tracker) : act (list event) :=
  let current_mode := get_slot t "conversation_mode" in
  let new_mode := negb (truthy current_mode) in
  ret [SlotSet "conversation_mode" (PBool new_mode)].

Definition toggle_auto_speak_run (t : tracker) : act (list event) :=
  let current_setting := get_slot t "auto_speak" in
  let new_setting := negb (truthy current_setting) in
  ret [SlotSet "auto_speak" (PBool new_setting)].

Definition change_voice_run (t : tracker) : act (list event) :=
  let voice_name := get_slot t "voice_name" in
  if truthy voice_name then
    utter_message
      (PStr ("I've switched to the " +:+ format_value voice_name +:+ " voice.")) ;;
    ret [SlotSet "current_voice" voice_name]
  else
    utter_message
      (PStr "Which voice would you like me to use? Available: rachel, josh, bella, adam, sam") ;;
    ret [].

Definition ai_response_run (t : tracker) : act (list event) :=
  let user_message := dict_get (latest_message t) "text" PNone in
  try_except
    (response <- requests_post net chat_url (chat_json user_message) ;;
     if response.1 then
       data <- lift (response_json response) ;;
       ai_response <- lift (call_get data "result"
                              (PStr "I apologize, but I couldn't generate a response.")) ;;
       utter_message ai_response
     else
       utter_message (PStr "I'm having trouble thinking right now. Please try again."))
    (fun _ =>
       utter_message
         (PStr "I'm experiencing some technical difficulties. Please try again later.")) ;;
  ret [].

(** The prompt [ActionGenerateImage] extracts from the user message. *)
Definition image_prompt (user_message : string) : string :=
  strip (replace "make an image showing" ""
           (replace "create a picture of" ""
              (replace "generate an image of" "" (str_lower user_message)))).

Definition generate_image_run (t : tracker) : act (list event) :=
  let user_message := dict_get (latest_message t) "text" PNone in
  prompt <- lift (match user_message with
                  | PStr s => Ok (image_prompt s)
                  | _ => Raise AttributeError
                  end) ;;
  try_except
    (response <- requests_post net chat_url (image_json prompt) ;;
     if response.1 then
       data <- lift (response_json response) ;;
       result <- lift (call_get data "result" (PStr "")) ;;
       utter_message
         (PStr ("🎨 Here's your image:" +:+ nl +:+ nl +:+ format_value result))
     else
       utter_message (PStr "I couldn't generate the image right now."))
    (fun _ => utter_message (PStr "The image generation service is unavailable.")) ;;
  ret [].

Definition analyze_document_run (t : tracker) : act (list event) :=
  utter_message
    (PStr "📄 Please upload your document using the paperclip button, and I'll analyze it for you.") ;;
  ret [].

Definition build_app_run (t : tracker) : act (list event) :=
  let app_type := get_slot t "app_type" in
  (if truthy app_type
   then utter_message
          (PStr ("🚀 I'll help you build a " +:+ format_value app_type
                 +:+ " app! Let me open DeepAgent for you..."))
   else utter_message
          (PStr "What type of app would you like to build? (e.g., react, python, web, mobile)")) ;;
  ret [].

(** [action.run(dispatcher, tracker, domain)]. *)
Definition run (a : action) : tracker -> act (list event) :=
  match a with
  | ActionCreateTask => create_task_run
  | ActionListTasks => list_tasks_run
  | ActionBrowseWebsite => browse_website_run
  | ActionToggleConversationMode => toggle_conversation_mode_run
  | ActionToggleAutoSpeak => toggle_auto_speak_run
  | ActionChangeVoice => change_voice_run
  | ActionAIResponse => ai_response_run
  | ActionGenerateImage => generate_image_run
  | ActionAnalyzeDocument => analyze_document_run
  | ActionBuildApp => build_app_run
  end.
End Run.

End Actions.

(** ** The deployment script, [server/src/deploy-vision-models.py] *)

Module Deploy.
Import Py Eff Eff.Notations.

Inductive exn : Type :=
  | CalledProcessError (returncode : Z) (cmd : list string)
  | LibraryError (text : string)  (* raised inside an imported library *)
  | OSError (text : string).      (* raised by [mkdir], [open] or [write] *)

(** [str(e)], as the [except] clauses log it.  A command line is shown as
    the [repr] of its list, each argument between single quotes (arguments
    that themselves hold quotes or backslashes are not escaped here). *)
Definition exn_text (e : exn) : string :=
  match e with
  | CalledProcessError returncode cmd =>
      "Command '[" +:+ String.concat ", " (map (fun a => "'" +:+ a +:+ "'") cmd)
      +:+ "]' returned non-zero exit status " +:+ pretty returncode +:+ "."
  | LibraryError text => text
  | OSError text => text
  end.

(** How writing a file ends: the content is written; [open] raises and the
    file is as it was; or [open] has created or emptied the file and the
    write raises, with [remains] in the file. *)
Inductive write_outcome : Type :=
  | Written
  | OpenFails (text : string)
  | WriteFails (remains text : string).

(** What the script finds on the host.  A command and a library call answer
    by their exit status or exception, and leave the files as they see fit,
    whether they succeed or not. *)
Record host : Type := {
  executable : string;                 (* [sys.executable] *)
  cuda : option (string * string);     (* device name and memory, when a GPU is there *)
  subprocess_run : list string -> Z;   (* exit status of a command *)
  subprocess_files : list string -> gmap string string -> gmap string string;
    (* the files a command leaves, from the files it found *)
  library : string -> list string -> option string;
    (* an imported function on its arguments: [None] when it returns, the
       text of the exception when it raises *)
  library_files : string -> list string -> gmap string string -> gmap string string;
    (* the files such a call leaves, from the files it found *)
  mkdir : string -> option string;
    (* [Path.mkdir(parents=True, exist_ok=True)]: [None] when it returns *)
  open_write : string -> write_outcome
    (* opening a path for writing and writing to it *)
}.

Inductive step : Type :=
  | InstallDependencies
  | DeployQwenVl
  | DeployOcrStack
  | DeployEdgeModels
  | CreateUnifiedApi.

Inductive level : Type := LInfo | LWarning | LError.

(** What a run leaves behind, oldest first. *)
Inductive event : Type :=
  | Enter (s : step)                          (* a method of the deployer is entered *)
  | Log (l : level) (message : string)
  | Mkdir (path : string)
  | Open (path : string)                      (* [open(path, 'w')] *)
  | Run (argv : list string)
  | Call (function : string) (args : list string).

Record machine : Type := {
  trace : list event;
  files : gmap string string   (* path to content *)
}.

Definition init_machine : machine := {| trace := []; files := ∅ |}.

Abbreviation script := (M machine exn).

Definition emit (e : event) : script unit :=
  modify (fun m => {| trace := trace m ++ [e]; files := files m |}).

Definition logger_info (message : string) : script unit := emit (Log LInfo message).
Definition logger_warning (message : string) : script unit := emit (Log LWarning message).
Definition logger_error (message : string) : script unit := emit (Log LError message).

(** The files of the machine, changed by [f]. *)
Definition change_files (f : gmap string string -> gmap string string) : script unit :=
  modify (fun m => {| trace := trace m; files := f (files m) |}).

(** The text of the template, with a backquote where the Python source has a
    double quote. *)
Definition api_template : string := "
from fastapi import FastAPI, UploadFile, File
from fastapi.responses import JSONResponse
import torch
from PIL import Image
import io
import base64

app = FastAPI(title=`Unified Vision API`)

# Model loading would go here
models = {}

@app.get(`/health`)
async def health():
    return {
        `status`: `operational`,
        `gpu`: torch.cuda.is_available(),
        `models_loaded`: list(models.keys())
    }

@app.post(`/analyze`)
async def analyze_image(
    image: UploadFile = File(...),
    model: str = `auto`,
    task: str = `general`
):
    ```Unified endpoint for all vision tasks```
    contents = await image.read()
    img = Image.open(io.BytesIO(contents))
    
    # Model selection and inference logic
    result = {
        `model_used`: model,
        `task`: task,
        `status`: `success`,
        `analysis`: `Vision analysis results here`
    }
    
    return JSONResponse(result)

@app.post(`/ocr`)
async def extract_text(
    image: UploadFile = File(...),
    model: str = `easyocr`,
    languages: str = `en`
):
    ```OCR endpoint for text extraction```
    contents = await image.read()
    
    result = {
        `model`: model,
        `text`: `Extracted text here`,
        `languages`: languages.split(`,`)
    }
    
    return JSONResponse(result)

if __name__ == `__main__`:
    import uvicorn
    uvicorn.run(app, host=`0.0.0.0`, port=5001)
".

Definition double_quote : Ascii.ascii := Ascii.ascii_of_nat 34.

Fixpoint requote (s : string) : string :=
  match s with
  | EmptyString => EmptyString
  | String c t =>
      String (if Ascii.eqb c (Ascii.ascii_of_nat 96) then double_quote else c) (requote t)
  end.

(** The literal bound to [api_code] in [create_unified_api]. *)
Definition api_code : string := Eval vm_compute in requote api_template.

Definition dependencies : list string :=
  [ "torch torchvision torchaudio --index-url https://download.pytorch.org/whl/cu118";
    "transformers>=4.36.0";
    "accelerate";
    "bitsandbytes";
    "easyocr";
    "python-doctr[torch]";
    "kraken";
    "paddlepaddle-gpu";
    "paddleocr";
    "opencv-python";
    "pillow";
    "albumentations";
    "decord";
    "av";
    "huggingface-hub";
    "gradio";
    "fastapi";
    "uvicorn" ].

Section Deployer.
Variable h : host.
Local Open Scope eff_scope.

(** [with open(path, 'w') as f: f.write(content)]. *)
Definition write_file (path content : string) : script unit :=
  emit (Open path) ;;
  match open_write h path with
  | Written => change_files <[path := content]>
  | OpenFails text => raise (OSError text)
  | WriteFails remains text => change_files <[path := remains]> ;; raise (OSError text)
  end.

(** [self.models_dir] and [self.gpu_available]. *)
Definition models_dir : string := "/opt/models/vision".
Definition gpu_available : bool := bool_decide (is_Some (cuda h)).

(** [subprocess.run(argv, check=True)]. *)
Definition run_checked (argv : list string) : script unit :=
  emit (Run argv) ;;
  change_files (subprocess_files h argv) ;;
  let returncode := subprocess_run h argv in
  if returncode =? 0 then ret tt else raise (CalledProcessError returncode argv).

(** A call into an imported library. *)
Definition call (function : string) (args : list string) : script unit :=
  emit (Call function args) ;;
  change_files (library_files h function args) ;;
  match library h function args with
  | None => ret tt
  | Some text => raise (LibraryError text)
  end.

(** [VisionModelDeployer.__init__]. *)
Definition init : script unit :=
  emit (Mkdir models_dir) ;;
  match mkdir h models_dir with
  | None => ret tt
  | Some text => raise (OSError text)
  end ;;
  match cuda h with
  | Some (device_name, memory) =>
      logger_info ("✅ GPU detected: " +:+ device_name) ;;
      logger_info ("   Memory: " +:+ memory +:+ " GB")
  | None => logger_warning "⚠️  No GPU detected - models will run on CPU"
  end.

Definition install_dependencies : script unit :=
  emit (Enter InstallDependencies) ;;
  logger_info "📦 Installing vision model dependencies..." ;;
  for_each dependencies (fun dep =>
    logger_info ("Installing: " +:+ dep) ;;
    run_checked ([executable h; "-m"; "pip"; "install"] ++ split dep)).

Definition torch_dtype : string :=
  if gpu_available then "torch.float16" else "torch.float32".

Definition deploy_qwen_vl : script unit :=
  emit (Enter DeployQwenVl) ;;
  logger_info "🚀 Deploying Qwen 2.5 VL..." ;;
  call "import" ["transformers"] ;;
  let model_id := "Qwen/Qwen2-VL-7B-Instruct" in
  logger_info ("Downloading " +:+ model_id +:+ "...") ;;
  call "AutoTokenizer.from_pretrained" [model_id; "trust_remote_code=True"] ;;
  call "AutoModel.from_pretrained"
    [model_id; "trust_remote_code=True"; "torch_dtype=" +:+ torch_dtype;
     "device_map=" +:+ (if gpu_available then "auto" else "cpu")] ;;
  let save_path := models_dir +:+ "/qwen2-vl" in
  logger_info ("Saving model to " +:+ save_path) ;;
  call "model.save_pretrained" [save_path] ;;
  call "tokenizer.save_pretrained" [save_path] ;;
  logger_info "✅ Qwen 2.5 VL deployed successfully!".

Definition deploy_ocr_stack : script unit :=
  emit (Enter DeployOcrStack) ;;
  logger_info "📄 Deploying OCR liberation stack..." ;;
  call "import" ["easyocr"] ;;
  logger_info "Setting up EasyOCR..." ;;
  call "easyocr.Reader" ["en"; "ch_sim"; "es"; "fr"; "de"; "ja"; "ko"; "ru"; "ar"] ;;
  call "import" ["doctr.models"] ;;
  logger_info "Setting up docTR..." ;;
  call "ocr_predictor" ["pretrained=True"] ;;
  logger_info "Setting up Kraken for historical texts..." ;;
  call "import" ["paddleocr"] ;;
  logger_info "Setting up PaddleOCR..." ;;
  call "PaddleOCR"
    ["use_angle_cls=True"; "lang=en";
     "use_gpu=" +:+ (if gpu_available then "True" else "False")] ;;
  logger_info "✅ OCR stack deployed successfully!".

Definition deploy_edge_models : script unit :=
  emit (Enter DeployEdgeModels) ;;
  logger_info "📱 Deploying edge vision models..." ;;
  try_except
    (call "import" ["transformers"] ;;
     let model_id := "openbmb/MiniCPM-V-2" in
     logger_info ("Downloading " +:+ model_id +:+ "...") ;;
     call "AutoTokenizer.from_pretrained" [model_id; "trust_remote_code=True"] ;;
     call "AutoModel.from_pretrained"
       [model_id; "trust_remote_code=True"; "torch_dtype=" +:+ torch_dtype] ;;
     let save_path := models_dir +:+ "/minicpm-v" in
     call "model.save_pretrained" [save_path] ;;
     call "tokenizer.save_pretrained" [save_path] ;;
     logger_info "✅ MiniCPM-V deployed!")
    (fun e => logger_error ("Failed to deploy MiniCPM-V: " +:+ exn_text e)).

(** [self.models_dir.parent / "vision_api.py"]. *)
Definition api_path : string := "/opt/models/vision_api.py".

Definition create_unified_api : script unit :=
  emit (Enter CreateUnifiedApi) ;;
  logger_info "🔧 Creating unified vision API..." ;;
  write_file api_path api_code ;;
  logger_info ("✅ API created at " +:+ api_path) ;;
  logger_info "   Run with: python {api_path}".

Definition deploy_all : script unit :=
  logger_info "🚀 Starting complete vision stack deployment..." ;;
  install_dependencies ;;
  try_except
    (deploy_qwen_vl ;;
     logger_info "✅ Qwen VL ready for multimodal understanding")
    (fun e => logger_error ("Failed to deploy Qwen VL: " +:+ exn_text e)) ;;
  try_except
    (deploy_ocr_stack ;;
     logger_info "✅ OCR stack ready for document liberation")
    (fun e => logger_error ("Failed to deploy OCR stack: " +:+ exn_text e)) ;;
  try_except
    (deploy_edge_models ;;
     logger_info "✅ Edge models ready for mobile deployment")
    (fun e => logger_error ("Failed to deploy edge models: " +:+ exn_text e)) ;;
  create_unified_api ;;
  logger_info "🎉 Vision stack deployment complete!" ;;
  logger_info "🌍 Ready to perceive and understand the visual world!" ;;
  logger_info "💡 Every image understood, every document liberated!".

(** The script run as a program. *)
Definition main : script unit :=
  init ;;
  deploy_all.
End Deployer.

(** The methods [deploy_all] has entered, in order. *)
Definition steps_entered (t : list event) : list step :=
  omap (fun e => match e with Enter s => Some s | _ => None end) t.

End Deploy.

(** ** Properties of the inference server *)

Module ServerSpec.
Import Py Eff Server.

(** Unfolds a handler down to the case analysis on its inputs. *)
Ltac run_handler :=
  unfold handle, health, generate_text, generate_image, list_models,
    bind, lift, get, ret, request_json, call_get in *; simpl in *.

(** A response comes from the mock (resp. real) branch of an endpoint when it
    is what the [return] statement of that branch builds on some fields. *)
Definition from_mock_branch `{Runtime} (e : endpoint) (resp : response) : Prop :=
  match e with
  | Generate => exists prompt model, mock_text_response prompt model = Ok resp
  | GenerateImage => exists prompt model, resp = mock_image_response prompt model
  | Health | Models => False
  end.

Definition from_real_branch `{Runtime} (e : endpoint) (resp : response) : Prop :=
  match e with
  | Generate =>
      exists prompt model max_tokens, resp = real_text_response prompt model max_tokens
  | GenerateImage => exists prompt model, resp = real_image_response prompt model
  | Health | Models => False
  end.

(** The keys the interface documents for each endpoint. *)
Definition documented_keys (e : endpoint) : gset string :=
  match e with
  | Health => {[ "status"; "gpu_available"; "models_loaded" ]}
  | Generate => {[ "text"; "tokens_used"; "model"; "gpu_used" ]}
  | GenerateImage => {[ "image_url"; "prompt"; "model"; "gpu_used" ]}
  | Models => {[ "text_models"; "image_models"; "gpu_available" ]}
  end.

Definition cpu_only : globals :=
  {| GPU_AVAILABLE := false; TEXT_MODELS := ∅; IMAGE_MODELS := ∅ |}.

Definition with_gpu : globals :=
  {| GPU_AVAILABLE := true; TEXT_MODELS := ∅; IMAGE_MODELS := ∅ |}.

Section Facts.
Context `{Runtime}.

Lemma mock_text_inv prompt model resp :
  mock_text_response prompt model = Ok resp ->
  exists s,
    prompt = PStr s /\
    resp = {[ "text" := PStr ("[Mock H100 Response] I would generate text for: '"
                              +:+ s +:+ "' using model " +:+ format_value model);
              "tokens_used" := PInt (Z.of_nat (length (split s)) * 2);
              "model" := model;
              "gpu_used" := PBool false ]}.
Proof.
  unfold mock_text_response, call_split.
  destruct prompt; try discriminate.
  intros [= <-]. eexists. split; reflexivity.
Qed.

Lemma mock_text_gpu_used prompt model resp :
  mock_text_response prompt model = Ok resp -> resp !! "gpu_used" = Some (PBool false).
Proof. intros (s & -> & ->)%mock_text_inv. reflexivity. Qed.

Lemma real_text_gpu_used prompt model max_tokens :
  real_text_response prompt model max_tokens !! "gpu_used" = Some (PBool true).
Proof. reflexivity. Qed.

Lemma mock_image_gpu_used prompt model :
  mock_image_response prompt model !! "gpu_used" = Some (PBool false).
Proof. reflexivity. Qed.

Lemma real_image_gpu_used prompt model :
  real_image_response prompt model !! "gpu_used" = Some (PBool true).
Proof. reflexivity. Qed.

(** What [generate_text] and [generate_image] return, when they return. *)
Lemma generate_text_inv b g g' resp :
  generate_text b g = (g', Ok resp) ->
  g' = g /\
  exists d,
    b = Json (PDict d) /\
    if GPU_AVAILABLE g
    then resp = real_text_response (dict_get d "prompt" (PStr ""))
                  (dict_get d "model" (PStr "default"))
                  (dict_get d "max_tokens" (PInt 1000))
    else mock_text_response (dict_get d "prompt" (PStr ""))
           (dict_get d "model" (PStr "default")) = Ok resp.
Proof.
  run_handler. destruct b as [|[]]; simpl; try discriminate.
  destruct (GPU_AVAILABLE g); simpl.
  - intros [= <- <-]. eauto.
  - unfold lift. intros [= <- Hr]. eauto.
Qed.

Lemma generate_image_inv b g g' resp :
  generate_image b g = (g', Ok resp) ->
  g' = g /\
  exists d,
    b = Json (PDict d) /\
    resp = if GPU_AVAILABLE g
           then real_image_response (dict_get d "prompt" (PStr ""))
                  (dict_get d "model" (PStr "stable-diffusion-2.1"))
           else mock_image_response (dict_get d "prompt" (PStr ""))
                  (dict_get d "model" (PStr "stable-diffusion-2.1")).
Proof.
  run_handler. destruct b as [|[]]; simpl; try discriminate.
  destruct (GPU_AVAILABLE g); simpl; intros [= <- <-]; eauto.
Qed.

(** No handler writes the module globals. *)
Lemma handle_globals e b g : (handle e b g).1 = g.
Proof.
  destruct e; run_handler; try reflexivity.
  - destruct b as [|[]]; simpl; try reflexivity.
    destruct (GPU_AVAILABLE g); simpl; reflexivity.
  - destruct b as [|[]]; simpl; try reflexivity.
    destruct (GPU_AVAILABLE g); simpl; reflexivity.
Qed.

(** On [/generate] and [/generate-image], a request the handler answers is
    answered from the mock branch exactly when [GPU_AVAILABLE] is false and
    from the real branch exactly when it is true, and the [gpu_used] field
    of the answer is [GPU_AVAILABLE]. *)
Lemma answered_from_branch (e : endpoint) (b : body) (g g' : globals) (resp : response) :
  e = Generate \/ e = GenerateImage ->
  handle e b g = (g', Ok resp) ->
  (from_mock_branch e resp <-> GPU_AVAILABLE g = false) /\
  (from_real_branch e resp <-> GPU_AVAILABLE g = true) /\
  resp !! "gpu_used" = Some (PBool (GPU_AVAILABLE g)).
Proof.
  intros [-> | ->]; simpl.
  - intros (_ & d & _ & Hresp)%generate_text_inv.
    destruct (GPU_AVAILABLE g).
    + subst resp. split; [|split].
      * split; [|discriminate].
        intros (p & m & Hm%mock_text_gpu_used).
        rewrite real_text_gpu_used in Hm. discriminate.
      * split; [reflexivity|]. intros _. eauto.
      * apply real_text_gpu_used.
    + pose proof (mock_text_gpu_used _ _ _ Hresp) as Hused.
      split; [|split].
      * split; [reflexivity|]. intros _. eauto.
      * split; [|discriminate].
        intros (p & m & t & ->). rewrite real_text_gpu_used in Hused. discriminate.
      * exact Hused.
  - intros (_ & d & _ & ->)%generate_image_inv.
    destruct (GPU_AVAILABLE g).
    + split; [|split].
      * split; [|discriminate].
        intros (p & m & Hm). apply (f_equal (fun r => r !! "gpu_used")) in Hm.
        rewrite real_image_gpu_used, mock_image_gpu_used in Hm. discriminate.
      * split; [reflexivity|]. intros _. eauto.
      * apply real_image_gpu_used.
    + split; [|split].
      * split; [reflexivity|]. intros _. eauto.
      * split; [|discriminate].
        intros (p & m & Hm). apply (f_equal (fun r => r !! "gpu_used")) in Hm.
        rewrite real_image_gpu_used, mock_image_gpu_used in Hm. discriminate.
      * apply mock_image_gpu_used.
Qed.

(** A body that is not a JSON object stops the two generation handlers
    before they test [GPU_AVAILABLE]. *)
Lemma raises_before_branch (e : endpoint) (b : body) (g : globals) :
  e = Generate \/ e = GenerateImage ->
  (forall d, b <> Json (PDict d)) ->
  handle e b g = (g, Raise (match b with NotJson => HTTPException | Json _ => AttributeError end)).
Proof.
  intros [-> | ->] Hbody; run_handler;
    destruct b as [|[]]; simpl; try reflexivity; exfalso; by eapply Hbody.
Qed.

(** C1, as amended.  On a body that is a JSON object, [/generate] and
    [/generate-image] go on in the mock branch exactly when [GPU_AVAILABLE]
    is false and in the real branch exactly when it is true: the outcome of
    the handler is the outcome of that branch on the fields of the body
    (the mock branch of [/generate] raises on a prompt that is not a str,
    every other branch returns).  Every response they return is the one of
    the branch the flag selects and has [gpu_used] equal to the flag.  On a
    body that is not a JSON object they raise before the test. *)
Theorem gpu_selects_branch (d : gmap string pyval) (g : globals) :
  generate_text (Json (PDict d)) g =
    (g, if GPU_AVAILABLE g
        then Ok (real_text_response (dict_get d "prompt" (PStr ""))
                   (dict_get d "model" (PStr "default"))
                   (dict_get d "max_tokens" (PInt 1000)))
        else mock_text_response (dict_get d "prompt" (PStr ""))
               (dict_get d "model" (PStr "default"))) /\
  generate_image (Json (PDict d)) g =
    (g, Ok (if GPU_AVAILABLE g
            then real_image_response (dict_get d "prompt" (PStr ""))
                   (dict_get d "model" (PStr "stable-diffusion-2.1"))
            else mock_image_response (dict_get d "prompt" (PStr ""))
                   (dict_get d "model" (PStr "stable-diffusion-2.1")))) /\
  (forall e b g' resp,
     e = Generate \/ e = GenerateImage ->
     handle e b g = (g', Ok resp) ->
     (from_mock_branch e resp <-> GPU_AVAILABLE g = false) /\
     (from_real_branch e resp <-> GPU_AVAILABLE g = true) /\
     resp !! "gpu_used" = Some (PBool (GPU_AVAILABLE g))) /\
  (forall e b,
     e = Generate \/ e = GenerateImage ->
     (forall d', b <> Json (PDict d')) ->
     exists x, handle e b g = (g, Raise x)).
Proof.
  split; [|split; [|split]].
  - run_handler. destruct (GPU_AVAILABLE g); simpl; [reflexivity|].
    unfold lift. reflexivity.
  - run_handler. destruct (GPU_AVAILABLE g); reflexivity.
  - intros e b g' resp. apply answered_from_branch.
  - intros e b He Hbody. eexists. by apply raises_before_branch.
Qed.

(** C2.  Whenever the handler of an endpoint returns, the JSON object it
    returns has exactly the keys documented for that endpoint. *)
Theorem response_keys (e : endpoint) (b : body) (g g' : globals) (resp : response) :
  handle e b g = (g', Ok resp) ->
  dom resp = documented_keys e.
Proof.
  destruct e; simpl.
  - unfold health, bind, get, ret. intros [= _ <-]. set_solver.
  - intros (_ & d & _ & Hresp)%generate_text_inv.
    destruct (GPU_AVAILABLE g).
    + subst resp. unfold real_text_response. set_solver.
    + apply mock_text_inv in Hresp as (s & _ & ->). set_solver.
  - intros (_ & d & _ & ->)%generate_image_inv.
    destruct (GPU_AVAILABLE g);
      unfold real_image_response, mock_image_response; set_solver.
  - unfold list_models, bind, get, ret. intros [= _ <-]. set_solver.
Qed.

(** C4, as amended.  On a body that is a JSON object, each field the body
    omits takes its default.  [/generate-image] then returns, [/generate]
    returns on the real branch, and on the mock branch when the prompt is
    a string, as the default is. *)
Theorem omitted_fields_default (d : gmap string pyval) (g : globals) :
  let prompt := default (PStr "") (d !! "prompt") in
  let text_model := default (PStr "default") (d !! "model") in
  let image_model := default (PStr "stable-diffusion-2.1") (d !! "model") in
  let max_tokens := default (PInt 1000) (d !! "max_tokens") in
  generate_image (Json (PDict d)) g =
    (g, Ok (if GPU_AVAILABLE g
            then real_image_response prompt image_model
            else mock_image_response prompt image_model)) /\
  (GPU_AVAILABLE g = true ->
   generate_text (Json (PDict d)) g =
     (g, Ok (real_text_response prompt text_model max_tokens))) /\
  (GPU_AVAILABLE g = false -> forall s, prompt = PStr s ->
   exists resp,
     mock_text_response prompt text_model = Ok resp /\
     generate_text (Json (PDict d)) g = (g, Ok resp)).
Proof.
  run_handler. unfold dict_get.
  split; [|split].
  - destruct (GPU_AVAILABLE g), (d !! "prompt"), (d !! "model"); reflexivity.
  - intros ->. simpl.
    destruct (d !! "prompt"), (d !! "model"), (d !! "max_tokens"); reflexivity.
  - intros -> s Hs. simpl.
    destruct (d !! "prompt") as [p|]; simpl in Hs; subst;
      destruct (d !! "model"); simpl; eexists; split; reflexivity.
Qed.

(** C6.  A handler leaves the module globals as it found them, and run a
    second time on the same body it returns the same outcome. *)
Theorem handlers_stateless (e : endpoint) (b : body) (g : globals) :
  let first := handle e b g in
  let second := handle e b first.1 in
  first.1 = g /\ second.1 = g /\ second.2 = first.2.
Proof.
  intros first second. subst first second.
  rewrite !handle_globals. auto.
Qed.

(** C8.  Both loaders return an empty dict with or without a GPU, so after
    start-up [/health] reports [models_loaded] false and [/models] lists
    [none_loaded] for the text and for the image models. *)
Theorem no_models_loaded (t : torch) (b : body) :
  let g := (startup t).1 in
  (forall gpu, (load_text_models gpu).1 = ∅ /\ (load_image_models gpu).1 = ∅) /\
  TEXT_MODELS g = ∅ /\ IMAGE_MODELS g = ∅ /\
  (exists resp, handle Health b g = (g, Ok resp) /\
                resp !! "models_loaded" = Some (PBool false)) /\
  (exists resp, handle Models b g = (g, Ok resp) /\
                resp !! "text_models" = Some (PList [PStr "none_loaded"]) /\
                resp !! "image_models" = Some (PList [PStr "none_loaded"])).
Proof.
  split; [intros []; split; reflexivity|].
  destruct t as [|[] name version]; simpl;
    (split; [reflexivity|]); (split; [reflexivity|]);
    split; eexists; (split; [reflexivity|]); try split; reflexivity.
Qed.
End Facts.

Lemma gpu_selects_branch_witness :
  @generate_text example_runtime (Json (PDict ∅)) cpu_only =
    (cpu_only, @mock_text_response example_runtime (PStr "") (PStr "default")) /\
  (exists resp,
     @generate_image (Json (PDict ∅)) with_gpu = (with_gpu, Ok resp) /\
     resp !! "gpu_used" = Some (PBool true)) /\
  (exists x, @handle example_runtime Generate NotJson cpu_only = (cpu_only, Raise x)).
Proof.
  destruct (@gpu_selects_branch example_runtime ∅ cpu_only) as (Htext & _ & _ & Hraise).
  destruct (@gpu_selects_branch example_runtime ∅ with_gpu) as (_ & Himage & Hanswer & _).
  split; [exact Htext|]. split.
  - eexists. split; [exact Himage|].
    apply (Hanswer GenerateImage (Json (PDict ∅)) with_gpu); [by right|exact Himage].
  - apply Hraise; [by left|discriminate].
Defined.

(** C1 as the specification states it fails: without a GPU, a request whose
    body is not a JSON object is not answered from the mock branch, nor from
    any branch: the handler raises and returns no JSON. *)
Lemma branch_not_reached :
  GPU_AVAILABLE cpu_only = false /\
  @handle example_runtime Generate NotJson cpu_only = (cpu_only, Raise HTTPException) /\
  @handle example_runtime GenerateImage (Json (PList [])) cpu_only
  = (cpu_only, Raise AttributeError) /\
  ~ (exists g' resp,
       @handle example_runtime Generate NotJson cpu_only = (g', Ok resp) /\
       @from_mock_branch example_runtime Generate resp) /\
  ~ (exists g' resp,
       @handle example_runtime GenerateImage (Json (PList [])) cpu_only = (g', Ok resp) /\
       resp !! "gpu_used" = Some (PBool (GPU_AVAILABLE cpu_only))).
Proof.
  split; [reflexivity|]. split; [reflexivity|]. split; [reflexivity|]. split.
  - intros (g' & resp & Hrun & _). vm_compute in Hrun. discriminate.
  - intros (g' & resp & Hrun & _). vm_compute in Hrun. discriminate.
Qed.

Lemma response_keys_witness :
  dom (@mock_image_response (PStr "a cat") (PStr "stable-diffusion-2.1"))
  = documented_keys GenerateImage.
Proof.
  apply (@response_keys example_runtime GenerateImage
           (Json (PDict {[ "prompt" := PStr "a cat" ]})) cpu_only cpu_only).
  vm_compute. reflexivity.
Defined.

(** C4 as the specification states it fails: a body that is not JSON, a JSON
    body that is not an object, and an object whose prompt is not a string
    (on the mock branch) make the handler raise. *)
Lemma malformed_body_raises :
  (@generate_text example_runtime NotJson cpu_only).2 = Raise HTTPException /\
  (@generate_image NotJson cpu_only).2 = Raise HTTPException /\
  (@generate_image (Json (PList [])) cpu_only).2 = Raise AttributeError /\
  (@generate_text example_runtime (Json (PDict {[ "prompt" := PInt 5 ]})) cpu_only).2
  = Raise AttributeError /\
  ~ (exists resp, (@generate_text example_runtime NotJson cpu_only).2 = Ok resp).
Proof.
  repeat split; try (vm_compute; reflexivity).
  intros [resp Hresp]. vm_compute in Hresp. discriminate.
Qed.

Lemma omitted_fields_default_witness :
  exists resp,
    resp !! "model" = Some (PStr "default") /\
    @generate_text example_runtime (Json (PDict ∅)) cpu_only = (cpu_only, Ok resp).
Proof.
  destruct (@omitted_fields_default example_runtime ∅ cpu_only) as (_ & _ & Hmock).
  destruct (Hmock eq_refl "" eq_refl) as (resp & Hresp & Hrun).
  exists resp. split; [|exact Hrun].
  apply (@mock_text_inv example_runtime) in Hresp as (s & _ & ->). reflexivity.
Defined.

End ServerSpec.

(** ** Properties of the dialogue actions *)

Module ActionsSpec.
Import Py Eff Actions.

(** Unfolds an action down to the case analysis on its inputs. *)
Ltac run_action :=
  unfold run, create_task_run, list_tasks_run, browse_website_run,
    toggle_conversation_mode_run, toggle_auto_speak_run, change_voice_run,
    ai_response_run, generate_image_run, analyze_document_run, build_app_run,
    try_except, bind, lift, ret, utter_message, modify,
    requests_post, requests_get, send, response_json in *.

(** Splits on the next input the action looks at: a truth test, the answer
    of the remote end, the shape of a value. *)
Ltac split_input net :=
  simpl;
  match goal with
  | |- context [truthy ?v] => destruct (truthy v) eqn:?
  | |- context [finite_json ?v] => destruct (finite_json v) eqn:?
  | |- context [net ?r] => destruct (net r) as [|[] [?|]] eqn:?
  | |- context [call_get ?d _ _] => is_var d; destruct d
  | |- context [iterate ?v] => destruct (iterate v)
  | |- context [task_lines ?s ?l] => destruct (task_lines s l)
  | |- context [dict_get ?d ?k ?x] => destruct (dict_get d k x)
  | |- context [get_slot ?t ?k] => destruct (get_slot t k)
  end.

(** The method and URL an action sends its request to, if it sends one. *)
Definition target (a : action) : option (http_method * string) :=
  match a with
  | ActionCreateTask => Some (POST, tasks_url)
  | ActionListTasks => Some (GET, tasks_url)
  | ActionBrowseWebsite => Some (POST, navigate_url)
  | ActionAIResponse | ActionGenerateImage => Some (POST, chat_url)
  | ActionToggleConversationMode | ActionToggleAutoSpeak | ActionChangeVoice
  | ActionAnalyzeDocument | ActionBuildApp => None
  end.

(** The downstream call failed: it raised, or the status is not ok. *)
Definition failed (r : http_reply) : Prop :=
  r = NoReply \/ exists json, r = Reply false json.

(** The fixed texts an action answers a failed call with. *)
Definition failure_texts (a : action) : list string :=
  match a with
  | ActionCreateTask =>
      ["Sorry, I couldn't create the task. Please try again.";
       "I'm having trouble connecting to the task service."]
  | ActionListTasks => ["I couldn't retrieve your tasks right now."]
  | ActionBrowseWebsite =>
      ["I had trouble opening that website.";
       "The browser service isn't available right now."]
  | ActionAIResponse =>
      ["I'm having trouble thinking right now. Please try again.";
       "I'm experiencing some technical difficulties. Please try again later."]
  | ActionGenerateImage =>
      ["I couldn't generate the image right now.";
       "The image generation service is unavailable."]
  | _ => []
  end.

(** A tracker with no slot set and an empty latest message. *)
Definition blank : tracker := {| slots := ∅; latest_message := ∅ |}.

Section Facts.
Context `{Runtime}.
Variable net : network.

#[local] Arguments finite_json : simpl never.
#[local] Arguments task_json : simpl never.
#[local] Arguments navigate_json : simpl never.
#[local] Arguments chat_json : simpl never.
#[local] Arguments image_json : simpl never.

(** The tracker after the events of one run of an action are applied. *)
Definition after_run (a : action) (t : tracker) : tracker :=
  match (run net a t init_world).2 with
  | Ok events => apply_events t events
  | Raise _ => t
  end.

Lemma no_request_sent {A} (l : list A) (x : A) : l = (l ++ [x])%list -> False.
Proof.
  intros Heq. apply (f_equal length) in Heq.
  rewrite length_app in Heq. simpl in Heq. lia.
Qed.



(** Every request an action issues goes to the action's own target. *)
Lemma requests_of_run (a : action) (t : tracker) (w : world) :
  exists new,
    requests (run net a t w).1 = (requests w ++ new)%list /\
    (length new <= 1)%nat /\
    Forall (fun r => target a = Some (req_method r, req_url r)) new.
Proof.
  destruct a; run_action; repeat split_input net; simpl;
    (eexists; split;
     [ first [ symmetry; apply app_nil_r | reflexivity ]
     | split; [simpl; lia | repeat constructor] ]).
Qed.

(** The four actions that answer a failed call: one fixed text, no event. *)
Lemma failure_answered (a : action) (t : tracker) (w : world) (req : http_request) :
  a ∈ [ActionCreateTask; ActionBrowseWebsite; ActionAIResponse; ActionGenerateImage] ->
  requests (run net a t w).1 = (requests w ++ [req])%list ->
  failed (net req) ->
  exists text,
    text ∈ failure_texts a /\
    run net a t w =
      ({| messages := messages w ++ [PStr text]; requests := requests w ++ [req] |},
       Ok []).
Proof.
  intros Ha. repeat (apply elem_of_cons in Ha as [-> | Ha]);
    [ | | | | inversion Ha ];
    run_action; repeat split_input net; simpl;
    intros Hreq [Hfail | [json Hfail]];
    try (apply no_request_sent in Hreq; contradiction);
    apply app_inv_head in Hreq; injection Hreq as <-; try congruence;
    (eexists; split; [ | reflexivity ]);
    first [ apply list_elem_of_here | apply list_elem_of_further, list_elem_of_here ].
Qed.

(** C3 fails on [ActionListTasks]: when the orchestrator answers with a status
    that is not ok, the action sends its request, says nothing and returns
    no event, where the claim has it say one fixed text, as the other four
    actions do. *)
Theorem list_tasks_silent_on_error_status
  (t : tracker) (w : world) (json : option pyval) :
  net {| req_method := GET; req_url := tasks_url; req_json := None |} = Reply false json ->
  run net ActionListTasks t w =
    ({| messages := messages w;
        requests := requests w ++ [{| req_method := GET; req_url := tasks_url;
                                      req_json := None |}] |},
     Ok []) /\
  messages (run net ActionListTasks t w).1 = messages w.
Proof.
  intros Hnet.
  assert (Hrun : run net ActionListTasks t w =
                 ({| messages := messages w;
                     requests := requests w ++ [{| req_method := GET; req_url := tasks_url;
                                                   req_json := None |}] |},
                  Ok [])).
  { run_action. rewrite Hnet. reflexivity. }
  split; [exact Hrun|]. rewrite Hrun. reflexivity.
Qed.

(** [ActionListTasks] when the call raises: one fixed text. *)
Lemma list_tasks_no_reply (t : tracker) (w : world) :
  net {| req_method := GET; req_url := tasks_url; req_json := None |} = NoReply ->
  run net ActionListTasks t w =
    ({| messages := messages w ++ [PStr "I couldn't retrieve your tasks right now."];
        requests := requests w ++ [{| req_method := GET; req_url := tasks_url;
                                      req_json := None |}] |},
     Ok []).
Proof. intros Hnet. run_action. rewrite Hnet. reflexivity. Qed.

(** The slot a toggle acts on, after one run. *)
Definition toggled (a : action) : option string :=
  match a with
  | ActionToggleConversationMode => Some "conversation_mode"
  | ActionToggleAutoSpeak => Some "auto_speak"
  | _ => None
  end.

Lemma toggled_slot (a : action) (slot : string) (t : tracker) :
  toggled a = Some slot ->
  get_slot (after_run a t) slot = PBool (negb (truthy (get_slot t slot))).
Proof.
  destruct a; intros [= <-]; unfold after_run; simpl;
    unfold get_slot at 1, dict_get; simpl; by rewrite lookup_insert_eq.
Qed.

(** C7.  Whatever the tracker holds and whatever the remote end answers,
    an action issues at most one request, to the method and URL fixed for
    that action, one of the three localhost URLs. *)
Theorem outbound_urls_fixed (a : action) (t : tracker) (w : world) :
  exists new,
    requests (run net a t w).1 = (requests w ++ new)%list /\
    (length new <= 1)%nat /\
    Forall (fun r => target a = Some (req_method r, req_url r) /\
                     req_url r ∈ ["http://localhost:3000/api/orchestrator/tasks";
                                  "http://localhost:3000/api/browser-agent/navigate";
                                  "http://localhost:3000/api/ai/chat"]) new.
Proof.
  destruct (requests_of_run a t w) as (new & Hnew & Hlen & Hall).
  exists new. split; [exact Hnew|]. split; [exact Hlen|].
  eapply Forall_impl; [exact Hall|].
  intros r Hr. split; [exact Hr|]. clear Hnew Hlen Hall.
  destruct a; simpl in Hr; try discriminate; injection Hr as _ <-;
    unfold tasks_url, navigate_url, chat_url; set_solver.
Qed.

(** C9.  Each toggle returns one [SlotSet] whose value is the negation of
    the truth value of the slot; on a boolean slot two runs give the slot
    back, and on an unset slot the first run sets [True] and the second
    [False]. *)
Theorem toggle_negates (a : action) (slot : string) (t : tracker) (w : world) :
  (a, slot) = (ActionToggleConversationMode, "conversation_mode") \/
  (a, slot) = (ActionToggleAutoSpeak, "auto_speak") ->
  run net a t w = (w, Ok [SlotSet slot (PBool (negb (truthy (get_slot t slot))))]) /\
  (forall b, get_slot t slot = PBool b ->
             get_slot (after_run a (after_run a t)) slot = PBool b) /\
  (get_slot t slot = PNone ->
   get_slot (after_run a t) slot = PBool true /\
   get_slot (after_run a (after_run a t)) slot = PBool false).
Proof.
  intros [[= -> ->] | [= -> ->]];
    (split; [reflexivity|]);
    rewrite !toggled_slot by reflexivity;
    (split; [intros b ->; simpl; by rewrite negb_involutive | intros ->; auto]).
Qed.


(** A [website_url] that is true but not a str has no [startswith]: the
    action raises before any request is sent. *)
Lemma browse_not_a_str (t : tracker) (w : world) :
  truthy (get_slot t "website_url") = true ->
  (forall s, get_slot t "website_url" <> PStr s) ->
  run net ActionBrowseWebsite t w = (w, Raise AttributeError).
Proof.
  intros Htrue Hstr. run_action. rewrite Htrue.
  destruct (get_slot t "website_url"); try reflexivity.
  exfalso. eapply Hstr. reflexivity.
Qed.
End Facts.

Definition error_500 : network := fun _ => Reply false None.

Lemma list_tasks_silent_on_error_status_witness :
  @run example_runtime error_500 ActionListTasks blank init_world =
    ({| messages := [];
        requests := [{| req_method := GET; req_url := tasks_url; req_json := None |}] |},
     Ok []) /\
  messages (@run example_runtime error_500 ActionListTasks blank init_world).1 = [].
Proof.
  apply (@list_tasks_silent_on_error_status example_runtime error_500 blank init_world None).
  reflexivity.
Defined.

Lemma toggle_negates_witness :
  @run example_runtime error_500 ActionToggleAutoSpeak blank init_world =
    (init_world, Ok [SlotSet "auto_speak" (PBool true)]) /\
  get_slot (@after_run example_runtime error_500 ActionToggleAutoSpeak
              (@after_run example_runtime error_500 ActionToggleAutoSpeak blank))
    "auto_speak" = PBool false.
Proof.
  destruct (@toggle_negates example_runtime error_500 ActionToggleAutoSpeak
              "auto_speak" blank init_world) as (Hrun & _ & Hunset).
  - right. reflexivity.
  - split; [exact Hrun|]. apply Hunset. reflexivity.
Defined.


End ActionsSpec.

(** ** Properties of the deployment script *)

Module DeploySpec.
Import Py Eff Deploy.

(** Four facts about a piece of the script: which methods its run enters,
    that it leaves the files alone, that it cannot raise, and that its
    outcome does not depend on what ran before. *)
Definition marks {A} (c : script A) (steps : list step) : Prop :=
  forall m, exists new,
    trace (c m).1 = (trace m ++ new)%list /\ steps_entered new = steps.

Definition keeps {A} (c : script A) : Prop :=
  forall m, files (c m).1 = files m.

Definition total (c : script unit) : Prop :=
  forall m, (c m).2 = Ok tt.

Definition steady {A} (c : script A) : Prop :=
  forall m m', (c m).2 = (c m').2.

Definition quiet_event (e : event) : Prop :=
  match e with Enter _ => False | _ => True end.

Create HintDb script.

Section Combinators.
Context {A B : Type}.

Lemma bind_ok (c : script A) (k : A -> script B) (m : machine) (a : A) :
  (c m).2 = Ok a -> bind c k m = k a (c m).1.
Proof. unfold bind. destruct (c m) as [m' []]; simpl; congruence. Qed.

Lemma bind_raise (c : script A) (k : A -> script B) (m : machine) (e : exn) :
  (c m).2 = Raise e -> bind c k m = ((c m).1, Raise e).
Proof. unfold bind. destruct (c m) as [m' []]; simpl; congruence. Qed.

Lemma marks_ret (a : A) : marks (ret a : script A) [].
Proof. intros m. exists []. simpl. by rewrite app_nil_r. Qed.

Lemma marks_raise (e : exn) : marks (raise e : script A) [].
Proof. intros m. exists []. simpl. by rewrite app_nil_r. Qed.

Lemma marks_bind (c : script A) (k : A -> script B) (steps : list step) :
  marks c steps -> (forall a, marks (k a) []) -> marks (bind c k) steps.
Proof.
  intros Hc Hk m. destruct (Hc m) as (new & Htr & Hst).
  unfold bind. destruct (c m) as [m' [a|e]]; simpl in *; [|eauto].
  destruct (Hk a m') as (new' & Htr' & Hst').
  exists (new ++ new')%list. split.
  - rewrite Htr', Htr. by rewrite app_assoc.
  - unfold steps_entered in *. rewrite omap_app, Hst, Hst'. by rewrite app_nil_r.
Qed.

Lemma marks_try (c : script A) (h : exn -> script A) (steps : list step) :
  marks c steps -> (forall e, marks (h e) []) -> marks (try_except c h) steps.
Proof.
  intros Hc Hh m. destruct (Hc m) as (new & Htr & Hst).
  unfold try_except. destruct (c m) as [m' [a|e]]; simpl in *; [eauto|].
  destruct (Hh e m') as (new' & Htr' & Hst').
  exists (new ++ new')%list. split.
  - rewrite Htr', Htr. by rewrite app_assoc.
  - unfold steps_entered in *. rewrite omap_app, Hst, Hst'. by rewrite app_nil_r.
Qed.

Lemma keeps_ret (a : A) : keeps (ret a : script A).
Proof. intros m. reflexivity. Qed.

Lemma keeps_raise (e : exn) : keeps (raise e : script A).
Proof. intros m. reflexivity. Qed.

Lemma keeps_bind (c : script A) (k : A -> script B) :
  keeps c -> (forall a, keeps (k a)) -> keeps (bind c k).
Proof.
  intros Hc Hk m. specialize (Hc m). unfold bind.
  destruct (c m) as [m' [a|e]]; simpl in *; [|exact Hc].
  by rewrite Hk.
Qed.

Lemma keeps_try (c : script A) (h : exn -> script A) :
  keeps c -> (forall e, keeps (h e)) -> keeps (try_except c h).
Proof.
  intros Hc Hh m. specialize (Hc m). unfold try_except.
  destruct (c m) as [m' [a|e]]; simpl in *; [exact Hc|].
  by rewrite Hh.
Qed.

Lemma steady_ret (a : A) : steady (ret a : script A).
Proof. intros m m'. reflexivity. Qed.

Lemma steady_raise (e : exn) : steady (raise e : script A).
Proof. intros m m'. reflexivity. Qed.

Lemma steady_bind (c : script A) (k : A -> script B) :
  steady c -> (forall a, steady (k a)) -> steady (bind c k).
Proof.
  intros Hc Hk m m'. specialize (Hc m m'). unfold bind.
  destruct (c m) as [m1 [a|e]], (c m') as [m1' [a'|e']]; simpl in *;
    try congruence.
  injection Hc as <-. apply Hk.
Qed.
End Combinators.

Lemma marks_emit (e : event) : quiet_event e -> marks (emit e) [].
Proof. intros He m. exists [e]. split; [reflexivity|]. by destruct e. Qed.

Lemma marks_enter (s : step) (c : script unit) :
  marks c [] -> marks (bind (emit (Enter s)) (fun _ => c)) [s].
Proof.
  intros Hc m. unfold bind, emit, modify. simpl.
  destruct (Hc {| trace := trace m ++ [Enter s]; files := files m |})
    as (new & Htr & Hst).
  exists (Enter s :: new). split.
  - rewrite Htr. simpl. by rewrite <- app_assoc.
  - change (s :: steps_entered new = [s]). by rewrite Hst.
Qed.

Lemma keeps_emit (e : event) : keeps (emit e).
Proof. intros m. reflexivity. Qed.

Lemma total_emit (e : event) : total (emit e).
Proof. intros m. reflexivity. Qed.

Lemma steady_emit (e : event) : steady (emit e).
Proof. intros m m'. reflexivity. Qed.

Lemma marks_change (f : gmap string string -> gmap string string) :
  marks (change_files f) [].
Proof. intros m. exists []. simpl. by rewrite app_nil_r. Qed.

Lemma total_change (f : gmap string string -> gmap string string) :
  total (change_files f).
Proof. intros m. reflexivity. Qed.

Lemma steady_change (f : gmap string string -> gmap string string) :
  steady (change_files f).
Proof. intros m m'. reflexivity. Qed.

Lemma total_bind {A} (c : script A) (k : A -> script unit) :
  (forall m, exists a, (c m).2 = Ok a) -> (forall a, total (k a)) -> total (bind c k).
Proof.
  intros Hc Hk m. destruct (Hc m) as [a Ha].
  rewrite (bind_ok _ _ _ _ Ha). apply Hk.
Qed.

Lemma total_seq (c k : script unit) :
  total c -> total k -> total (bind c (fun _ => k)).
Proof. intros Hc Hk. apply total_bind; [|auto]. intros m. exists tt. apply Hc. Qed.

Lemma total_try (c : script unit) (h : exn -> script unit) :
  (forall e, total (h e)) -> total (try_except c h).
Proof.
  intros Hh m. unfold try_except.
  destruct (c m) as [m' [[]|e]]; simpl; [reflexivity|apply Hh].
Qed.

Lemma marks_for_each {A} (l : list A) (body : A -> script unit) :
  (forall x, marks (body x) []) -> marks (for_each l body) [].
Proof.
  intros Hb. induction l as [|x l IH]; simpl.
  - apply marks_ret.
  - apply marks_bind; auto.
Qed.

Lemma keeps_for_each {A} (l : list A) (body : A -> script unit) :
  (forall x, keeps (body x)) -> keeps (for_each l body).
Proof.
  intros Hb. induction l as [|x l IH]; simpl.
  - apply keeps_ret.
  - apply keeps_bind; auto.
Qed.

Lemma steady_for_each {A} (l : list A) (body : A -> script unit) :
  (forall x, steady (body x)) -> steady (for_each l body).
Proof.
  intros Hb. induction l as [|x l IH]; simpl.
  - apply steady_ret.
  - apply steady_bind; auto.
Qed.

Lemma seq_total (c k : script unit) (m : machine) :
  total c -> bind c (fun _ => k) m = k (c m).1.
Proof. intros Hc. apply bind_ok with (a := tt). apply Hc. Qed.

Lemma marks_seq (c k : script unit) (steps steps' : list step) :
  marks c steps -> total c -> marks k steps' ->
  marks (bind c (fun _ => k)) (steps ++ steps').
Proof.
  intros Hc Ht Hk m. rewrite seq_total by exact Ht.
  destruct (Hc m) as (new & Htr & Hst).
  destruct (Hk (c m).1) as (new' & Htr' & Hst').
  exists (new ++ new')%list. split.
  - rewrite Htr', Htr. by rewrite app_assoc.
  - unfold steps_entered in *. by rewrite omap_app, Hst, Hst'.
Qed.

#[local] Hint Resolve marks_ret marks_raise marks_bind marks_try marks_emit
  marks_for_each keeps_ret keeps_raise keeps_bind keeps_try keeps_emit
  keeps_for_each steady_ret steady_raise steady_bind steady_emit
  steady_for_each total_emit total_seq total_try : script.
#[local] Hint Extern 1 (quiet_event _) => exact I : script.

Section Facts.
Variable h : host.

Lemma marks_call f args : marks (call h f args) [].
Proof.
  unfold call. apply marks_bind; [auto with script|]. intros _.
  apply marks_bind; [apply marks_change|]. intros _.
  destruct (library h f args); auto with script.
Qed.

Lemma marks_run_checked argv : marks (run_checked h argv) [].
Proof.
  unfold run_checked. apply marks_bind; [auto with script|]. intros _.
  apply marks_bind; [apply marks_change|]. intros _.
  destruct (_ =? _); auto with script.
Qed.

Lemma steady_run_checked argv : steady (run_checked h argv).
Proof.
  unfold run_checked. apply steady_bind; [auto with script|]. intros _.
  apply steady_bind; [apply steady_change|]. intros _.
  destruct (_ =? _); auto with script.
Qed.

Lemma marks_write_file path content : marks (write_file h path content) [].
Proof.
  unfold write_file. apply marks_bind; [by apply marks_emit|]. intros _.
  destruct (open_write h path); [apply marks_change | apply marks_raise |].
  apply marks_bind; [apply marks_change|]. intros _. apply marks_raise.
Qed.

Hint Resolve marks_call marks_run_checked steady_run_checked marks_write_file : script.

Ltac script_facts :=
  unfold logger_info, logger_warning, logger_error;
  repeat first
    [ apply marks_call | apply marks_write_file
    | apply marks_run_checked | apply steady_run_checked
    | apply marks_for_each | apply keeps_for_each | apply steady_for_each
    | apply marks_emit; exact I | apply keeps_emit | apply steady_emit
    | apply total_emit
    | apply marks_enter | apply marks_bind | apply marks_try
    | apply keeps_bind | apply keeps_try | apply steady_bind
    | apply total_seq | apply total_try
    | match goal with |- forall _, _ => intro end ].

Lemma marks_install : marks (install_dependencies h) [InstallDependencies].
Proof. unfold install_dependencies. script_facts. Qed.

Lemma steady_install : steady (install_dependencies h).
Proof. unfold install_dependencies. script_facts. Qed.

Lemma marks_qwen : marks (deploy_qwen_vl h) [DeployQwenVl].
Proof. unfold deploy_qwen_vl. script_facts. Qed.

Lemma marks_ocr : marks (deploy_ocr_stack h) [DeployOcrStack].
Proof. unfold deploy_ocr_stack. script_facts. Qed.

Lemma marks_edge : marks (deploy_edge_models h) [DeployEdgeModels].
Proof. unfold deploy_edge_models. script_facts. Qed.

(** What [deploy_all] does once the three model steps are over. *)
Definition closing : script unit :=
  Eff.bind (create_unified_api h) (fun _ =>
  Eff.bind (logger_info "🎉 Vision stack deployment complete!") (fun _ =>
  Eff.bind (logger_info "🌍 Ready to perceive and understand the visual world!") (fun _ =>
  logger_info "💡 Every image understood, every document liberated!"))).

(** What [deploy_all] does once the dependencies are installed. *)
Definition after_install : script unit :=
  Eff.bind
    (try_except
       (Eff.bind (deploy_qwen_vl h) (fun _ =>
          logger_info "✅ Qwen VL ready for multimodal understanding"))
       (fun e => logger_error ("Failed to deploy Qwen VL: " +:+ exn_text e)))
    (fun _ =>
  Eff.bind
    (try_except
       (Eff.bind (deploy_ocr_stack h) (fun _ =>
          logger_info "✅ OCR stack ready for document liberation"))
       (fun e => logger_error ("Failed to deploy OCR stack: " +:+ exn_text e)))
    (fun _ =>
  Eff.bind
    (try_except
       (Eff.bind (deploy_edge_models h) (fun _ =>
          logger_info "✅ Edge models ready for mobile deployment"))
       (fun e => logger_error ("Failed to deploy edge models: " +:+ exn_text e)))
    (fun _ =>
  closing))).

Lemma deploy_all_split :
  deploy_all h =
    Eff.bind (logger_info "🚀 Starting complete vision stack deployment...") (fun _ =>
    Eff.bind (install_dependencies h) (fun _ => after_install)).
Proof. reflexivity. Qed.

Lemma marks_api : marks (create_unified_api h) [CreateUnifiedApi].
Proof. unfold create_unified_api. script_facts. Qed.

Lemma marks_closing : marks closing [CreateUnifiedApi].
Proof. unfold closing. apply marks_bind; [apply marks_api|]. script_facts. Qed.

(** The three ways [closing] ends, after the way the write ends. *)
Lemma closing_written (m : machine) :
  open_write h api_path = Written ->
  (closing m).2 = Ok tt /\
  files (closing m).1 = <[api_path := api_code]> (files m).
Proof.
  intros Hw. unfold closing, create_unified_api, write_file, logger_info.
  rewrite Hw. split; reflexivity.
Qed.

Lemma closing_open_fails (m : machine) (text : string) :
  open_write h api_path = OpenFails text ->
  (closing m).2 = Raise (OSError text) /\ files (closing m).1 = files m.
Proof.
  intros Hw. unfold closing, create_unified_api, write_file, logger_info.
  rewrite Hw. split; reflexivity.
Qed.

Lemma closing_write_fails (m : machine) (remains text : string) :
  open_write h api_path = WriteFails remains text ->
  (closing m).2 = Raise (OSError text) /\
  files (closing m).1 = <[api_path := remains]> (files m).
Proof.
  intros Hw. unfold closing, create_unified_api, write_file, logger_info.
  rewrite Hw. split; reflexivity.
Qed.

Lemma total_guard (c : script unit) (message : string) (handler : exn -> string) :
  total (try_except (Eff.bind c (fun _ => logger_info message))
           (fun e => logger_error (handler e))).
Proof. apply total_try. intros e. apply total_emit. Qed.

(** The three guarded model steps always return: [after_install] ends as
    [closing] does, from the machine they leave. *)
Lemma after_install_closing (m : machine) :
  exists m', after_install m = closing m'.
Proof.
  unfold after_install.
  rewrite seq_total by apply total_guard.
  rewrite seq_total by apply total_guard.
  rewrite seq_total by apply total_guard.
  eexists. reflexivity.
Qed.

Lemma marks_after_install :
  marks after_install [DeployQwenVl; DeployOcrStack; DeployEdgeModels; CreateUnifiedApi].
Proof.
  unfold after_install.
  apply (marks_seq _ _ [DeployQwenVl] [DeployOcrStack; DeployEdgeModels; CreateUnifiedApi]);
    [ apply marks_try; [apply marks_bind; [apply marks_qwen|]|]; script_facts
    | apply total_guard | ].
  apply (marks_seq _ _ [DeployOcrStack] [DeployEdgeModels; CreateUnifiedApi]);
    [ apply marks_try; [apply marks_bind; [apply marks_ocr|]|]; script_facts
    | apply total_guard | ].
  apply (marks_seq _ _ [DeployEdgeModels] [CreateUnifiedApi]);
    [ apply marks_try; [apply marks_bind; [apply marks_edge|]|]; script_facts
    | apply total_guard | ].
  apply marks_closing.
Qed.

(** When the installation fails, [deploy_all] stops there. *)
Lemma install_failure_stops (m : machine) (e : exn) :
  (install_dependencies h m).2 = Raise e ->
  (deploy_all h m).2 = Raise e /\
  (exists new, trace (deploy_all h m).1 = (trace m ++ new)%list /\
               steps_entered new = [InstallDependencies]).
Proof.
  intros Hfail. rewrite deploy_all_split.
  rewrite seq_total by apply total_emit.
  set (m1 := (logger_info _ m).1).
  assert (Hfail1 : (install_dependencies h m1).2 = Raise e)
    by (rewrite <- Hfail; apply steady_install).
  rewrite (bind_raise _ _ _ _ Hfail1). simpl.
  split; [reflexivity|].
  destruct (marks_install m1) as (new & Htr & Hst).
  exists (Log LInfo "🚀 Starting complete vision stack deployment..." :: new).
  split; [|exact Hst]. rewrite Htr. subst m1. simpl. by rewrite <- app_assoc.
Qed.

(** C5, as amended.  When [install_dependencies] succeeds, [deploy_all]
    enters its five steps one after the other, in the order
    install_dependencies, deploy_qwen_vl, deploy_ocr_stack,
    deploy_edge_models, create_unified_api: whatever the three model steps
    raise is caught, and the write of the template is attempted.  When that
    write goes through, [deploy_all] returns and the template is on disk.
    When [open] or the write raises, which no [try] covers, [deploy_all]
    raises that error. *)
Theorem deploy_all_sequence (m : machine) :
  (install_dependencies h m).2 = Ok tt ->
  (exists new,
     trace (deploy_all h m).1 = (trace m ++ new)%list /\
     steps_entered new =
       [InstallDependencies; DeployQwenVl; DeployOcrStack; DeployEdgeModels;
        CreateUnifiedApi]) /\
  (open_write h "/opt/models/vision_api.py" = Written ->
   (deploy_all h m).2 = Ok tt /\
   files (deploy_all h m).1 !! "/opt/models/vision_api.py" = Some api_code) /\
  (forall text,
     open_write h "/opt/models/vision_api.py" = OpenFails text ->
     (deploy_all h m).2 = Raise (OSError text)) /\
  (forall remains text,
     open_write h "/opt/models/vision_api.py" = WriteFails remains text ->
     (deploy_all h m).2 = Raise (OSError text) /\
     files (deploy_all h m).1 !! "/opt/models/vision_api.py" = Some remains) /\
  api_code = requote api_template.
Proof.
  intros Hok.
  assert (Hinstall : total (install_dependencies h))
    by (intros m'; rewrite <- Hok; apply steady_install).
  split.
  { rewrite deploy_all_split.
    apply (marks_seq _ _ [] _); [script_facts | apply total_emit |].
    apply (marks_seq _ _ [InstallDependencies] _);
      [apply marks_install | exact Hinstall | apply marks_after_install]. }
  assert (Hend : exists m', deploy_all h m = closing m').
  { rewrite deploy_all_split.
    rewrite seq_total by apply total_emit.
    rewrite seq_total by exact Hinstall.
    apply after_install_closing. }
  destruct Hend as [m' ->].
  split; [|split; [|split]].
  - intros Hw. destruct (closing_written m' Hw) as [Hres Hfiles].
    split; [exact Hres|]. rewrite Hfiles. apply lookup_insert_eq.
  - intros text Hw. apply (closing_open_fails m' text Hw).
  - intros remains text Hw.
    destruct (closing_write_fails m' remains text Hw) as [Hres Hfiles].
    split; [exact Hres|]. rewrite Hfiles. apply lookup_insert_eq.
  - reflexivity.
Qed.
End Facts.

(** A host where every package installs, every library call raises and the
    files can be written. *)
Definition broken_libraries : host :=
  {| executable := "/usr/bin/python3";
     cuda := None;
     subprocess_run := fun _ => 0;
     subprocess_files := fun _ files => files;
     library := fun _ _ => Some "connection reset";
     library_files := fun _ _ files => files;
     mkdir := fun _ => None;
     open_write := fun _ => Written |}.

(** A host where everything succeeds, except that [/opt/models] does not
    let the template be created. *)
Definition unwritable : host :=
  {| executable := "/usr/bin/python3";
     cuda := None;
     subprocess_run := fun _ => 0;
     subprocess_files := fun _ files => files;
     library := fun _ _ => None;
     library_files := fun _ _ files => files;
     mkdir := fun _ => None;
     open_write := fun _ => OpenFails "[Errno 13] Permission denied" |}.

Lemma deploy_all_sequence_witness :
  (deploy_all broken_libraries init_machine).2 = Ok tt /\
  files (deploy_all broken_libraries init_machine).1 !! "/opt/models/vision_api.py"
  = Some api_code.
Proof.
  destruct (deploy_all_sequence broken_libraries init_machine) as (_ & Hwritten & _).
  - vm_compute. reflexivity.
  - apply Hwritten. reflexivity.
Defined.

(** C5 as the specification states it fails: on a host where the
    installation and every model step succeed but the template cannot be
    opened for writing, [deploy_all] enters its five steps and raises, and
    the template is not on disk. *)
Lemma template_not_written :
  (install_dependencies unwritable init_machine).2 = Ok tt /\
  steps_entered (trace (deploy_all unwritable init_machine).1) =
    [InstallDependencies; DeployQwenVl; DeployOcrStack; DeployEdgeModels;
     CreateUnifiedApi] /\
  (deploy_all unwritable init_machine).2 = Raise (OSError "[Errno 13] Permission denied") /\
  files (deploy_all unwritable init_machine).1 !! "/opt/models/vision_api.py" = None.
Proof. repeat split; vm_compute; reflexivity. Qed.

End DeploySpec.
(** ** More on the inference server: failures, echoes and bounds *)

Module ServerMore.
Import Py Eff Server ServerSpec.

(** A value is a str. *)
Definition is_str (v : pyval) : Prop := exists s, v = PStr s.

Lemma chars_from_length (s : string) (skip : nat) :
  (length (chars_from skip s) <= String.length s)%nat.
Proof.
  revert skip. induction s as [|c t IH]; intros skip; [simpl; lia|].
  cbn [chars_from String.length]. destruct skip as [|k].
  - destruct (space_len (String c t)) as [|k]; simpl;
      match goal with |- context [chars_from ?n t] => specialize (IH n) end; lia.
  - specialize (IH k). lia.
Qed.

Lemma split_chars_length (l : list (bool * string)) (cur : string) :
  (length (split_chars cur l) <= length l + (if String.eqb cur "" then 0 else 1))%nat.
Proof.
  revert cur. induction l as [|[[] c] t IH]; intros cur; simpl.
  - destruct (String.eqb cur ""); simpl; lia.
  - specialize (IH ""). simpl in IH.
    destruct (String.eqb cur ""); simpl; lia.
  - specialize (IH (String.append cur c)).
    destruct (String.eqb (String.append cur c) ""); lia.
Qed.

(** [s.split()] has no more words than [s] has bytes. *)
Lemma split_length (s : string) : (length (split s) <= String.length s)%nat.
Proof.
  unfold split, chars.
  pose proof (split_chars_length (chars_from 0 s) "") as Hw.
  pose proof (chars_from_length s 0) as Hc. simpl in Hw. lia.
Qed.

Lemma dict_keys_elem (d : gmap string pyval) (k : string) :
  PStr k ∈ dict_keys d <-> k ∈ dom d.
Proof.
  unfold dict_keys. rewrite list_elem_of_fmap. split.
  - intros (k' & [= <-] & Hk). apply list_elem_of_fmap in Hk as ([k'' v] & -> & Hkv).
    apply elem_of_map_to_list in Hkv. apply elem_of_dom. eauto.
  - intros [v Hv]%elem_of_dom. exists k. split; [reflexivity|].
    apply list_elem_of_fmap. exists (k, v). split; [reflexivity|].
    by apply elem_of_map_to_list.
Qed.

Lemma truthy_dict (d : gmap string pyval) : truthy (PDict d) = true <-> d <> ∅.
Proof.
  simpl. rewrite negb_true_iff, bool_decide_eq_false. reflexivity.
Qed.

Lemma dict_keys_nonempty (d : gmap string pyval) : d <> ∅ -> dict_keys d <> [].
Proof.
  intros Hd Hnil. apply Hd. unfold dict_keys in Hnil.
  apply fmap_nil_inv in Hnil. apply fmap_nil_inv in Hnil.
  by apply map_to_list_empty_iff.
Qed.

(** The names [/models] lists for one of the two model dicts. *)
Definition listed (d : gmap string pyval) : pyval :=
  if truthy (PDict d) then PList (dict_keys d) else PList [PStr "none_loaded"].

Section Facts.
Context `{Runtime}.

(** X1.  [/generate] returns exactly on a body that is a JSON object and,
    when there is no GPU, whose prompt (given or defaulted) is a str. *)
Theorem generate_text_returns_iff (b : body) (g : globals) :
  (exists resp, (generate_text b g).2 = Ok resp) <->
  (exists d, b = Json (PDict d) /\
             (GPU_AVAILABLE g = true \/ is_str (dict_get d "prompt" (PStr "")))).
Proof.
  split.
  - intros [resp Hresp].
    destruct (generate_text b g) as [g' r] eqn:Hrun. simpl in Hresp. subst r.
    apply generate_text_inv in Hrun as (_ & d & -> & Hbranch).
    exists d. split; [reflexivity|].
    destruct (GPU_AVAILABLE g); [by left|right].
    apply mock_text_inv in Hbranch as (s & Hs & _). by exists s.
  - intros (d & -> & Hcan). run_handler.
    destruct (GPU_AVAILABLE g); simpl; [eauto|].
    destruct Hcan as [|[s Hs]]; [discriminate|].
    unfold mock_text_response. rewrite Hs. simpl. eauto.
Qed.

(** X2.  [/generate-image] returns exactly on a body that is a JSON object,
    whatever its fields hold. *)
Theorem generate_image_returns_iff (b : body) (g : globals) :
  (exists resp, (generate_image b g).2 = Ok resp) <-> (exists d, b = Json (PDict d)).
Proof.
  split.
  - intros [resp Hresp].
    destruct (generate_image b g) as [g' r] eqn:Hrun. simpl in Hresp. subst r.
    apply generate_image_inv in Hrun as (_ & d & -> & _). eauto.
  - intros (d & ->). run_handler. destruct (GPU_AVAILABLE g); simpl; eauto.
Qed.

(** X3.  A handler raises nothing but [HTTPException], on a body that is not
    JSON, and [AttributeError], on a JSON body. *)
Theorem raised_exceptions (e : endpoint) (b : body) (g : globals) (x : exn) :
  (handle e b g).2 = Raise x ->
  (b = NotJson /\ x = HTTPException) \/ ((exists v, b = Json v) /\ x = AttributeError).
Proof.
  destruct e; run_handler; try discriminate.
  - destruct b as [|v]; simpl; [intros [= <-]; by left|].
    destruct v; simpl; try (intros [= <-]; right; eauto).
    destruct (GPU_AVAILABLE g); simpl; [discriminate|].
    unfold mock_text_response, call_split.
    destruct (dict_get d "prompt" (PStr "")); simpl; try discriminate;
      intros [= <-]; right; eauto.
  - destruct b as [|v]; simpl; [intros [= <-]; by left|].
    destruct v; simpl; try (intros [= <-]; right; eauto).
    destruct (GPU_AVAILABLE g); simpl; discriminate.
Qed.

(** X4.  What [/generate] answers echoes the request: [model] is the
    request's model as sent (or the default), on either branch, and on the
    real branch [tokens_used] is the request's [max_tokens] as sent, of
    whatever type (or 1000). *)
Theorem generate_text_echoes (d : gmap string pyval) (g g' : globals) (resp : response) :
  generate_text (Json (PDict d)) g = (g', Ok resp) ->
  resp !! "model" = Some (dict_get d "model" (PStr "default")) /\
  (GPU_AVAILABLE g = true ->
   resp !! "tokens_used" = Some (dict_get d "max_tokens" (PInt 1000))).
Proof.
  intros (_ & d' & [= <-] & Hbranch)%generate_text_inv.
  destruct (GPU_AVAILABLE g).
  - subst resp. split; [reflexivity|]. intros _. reflexivity.
  - apply mock_text_inv in Hbranch as (s & _ & ->).
    split; [reflexivity|discriminate].
Qed.

(** X5.  What [/generate-image] answers carries the request's [prompt] and
    [model] as sent, of whatever type (or their defaults). *)
Theorem generate_image_echoes (d : gmap string pyval) (g g' : globals) (resp : response) :
  generate_image (Json (PDict d)) g = (g', Ok resp) ->
  resp !! "prompt" = Some (dict_get d "prompt" (PStr "")) /\
  resp !! "model" = Some (dict_get d "model" (PStr "stable-diffusion-2.1")).
Proof.
  intros (_ & d' & [= <-] & ->)%generate_image_inv.
  destruct (GPU_AVAILABLE g); split; reflexivity.
Qed.

(** X6.  Without a GPU, [tokens_used] is twice the number of words of the
    prompt: an even number between 0 and twice the length of the prompt. *)
Theorem mock_tokens_bound (b : body) (g g' : globals) (resp : response) :
  GPU_AVAILABLE g = false ->
  generate_text b g = (g', Ok resp) ->
  exists (s : string) (n : Z),
    (exists d, b = Json (PDict d) /\ dict_get d "prompt" (PStr "") = PStr s) /\
    resp !! "tokens_used" = Some (PInt n) /\
    n = 2 * Z.of_nat (length (split s)) /\
    Z.even n = true /\
    0 <= n <= 2 * Z.of_nat (String.length s).
Proof.
  intros Hgpu (_ & d & -> & Hbranch)%generate_text_inv. rewrite Hgpu in Hbranch.
  apply mock_text_inv in Hbranch as (s & Hs & ->).
  exists s, (Z.of_nat (length (split s)) * 2). split; [eauto|].
  split; [reflexivity|]. split; [lia|]. split.
  - rewrite Z.mul_comm. apply Z.even_mul.
  - pose proof (split_length s). lia.
Qed.

(** X7.  [/health] always returns, and reports [models_loaded] true exactly
    when one of the two model dicts is not empty. *)
Theorem health_models_loaded (b : body) (g : globals) :
  exists resp,
    handle Health b g = (g, Ok resp) /\
    (resp !! "models_loaded" = Some (PBool true) <->
     TEXT_MODELS g <> ∅ \/ IMAGE_MODELS g <> ∅).
Proof.
  eexists. split; [reflexivity|].
  change (Some (PBool (truthy (py_or (PDict (TEXT_MODELS g)) (PDict (IMAGE_MODELS g)))))
          = Some (PBool true) <-> TEXT_MODELS g <> ∅ \/ IMAGE_MODELS g <> ∅).
  unfold py_or. destruct (truthy (PDict (TEXT_MODELS g))) eqn:Htext.
  - rewrite Htext. apply truthy_dict in Htext. split; [by left|reflexivity].
  - assert (Hempty : TEXT_MODELS g = ∅).
    { destruct (decide (TEXT_MODELS g = ∅)) as [|Hne]; [done|].
      apply truthy_dict in Hne. congruence. }
    split.
    + intros [= Himage]. right. by apply truthy_dict.
    + intros [Hne | Hne]; [contradiction|].
      apply truthy_dict in Hne. by rewrite Hne.
Qed.

(** X8.  [/models] always returns two lists that are never empty: the names
    of the loaded models, each of them and nothing else, or the single entry
    [none_loaded] when the dict is empty. *)
Theorem models_listed (b : body) (g : globals) :
  exists resp,
    handle Models b g = (g, Ok resp) /\
    resp !! "text_models" = Some (listed (TEXT_MODELS g)) /\
    resp !! "image_models" = Some (listed (IMAGE_MODELS g)) /\
    forall d : gmap string pyval,
      exists names,
        listed d = PList names /\ names <> [] /\
        (d = ∅ -> names = [PStr "none_loaded"]) /\
        (d <> ∅ -> forall k, PStr k ∈ names <-> k ∈ dom d).
Proof.
  eexists. split; [reflexivity|]. split; [reflexivity|]. split; [reflexivity|].
  intros d. unfold listed. destruct (truthy (PDict d)) eqn:Hd.
  - apply truthy_dict in Hd. exists (dict_keys d).
    split; [reflexivity|]. split; [by apply dict_keys_nonempty|].
    split; [contradiction|]. intros _ k. apply dict_keys_elem.
  - exists [PStr "none_loaded"]. split; [reflexivity|]. split; [discriminate|].
    split; [reflexivity|]. intros Hne. apply truthy_dict in Hne. congruence.
Qed.
End Facts.

(** X9.  The server starts in every case, and [GPU_AVAILABLE] is true exactly
    when torch is installed and reports CUDA; a missing torch is logged as an
    error and leaves the flag false. *)
Theorem startup_gpu_flag (t : torch) :
  (GPU_AVAILABLE (startup t).1 = true <->
   exists name version, t = TorchPresent true name version) /\
  (t = TorchMissing <->
   (LError, "PyTorch not installed - GPU support unavailable") ∈ (startup t).2).
Proof.
  destruct t as [|[] name version]; simpl.
  - split; [split; [discriminate | intros (? & ? & [=])]|].
    split; [intros _; apply list_elem_of_here | reflexivity].
  - split; [split; [eauto | reflexivity]|].
    split; [discriminate|]. intros Hin.
    repeat (apply elem_of_cons in Hin as [[=]|Hin]). inversion Hin.
  - split; [split; [discriminate | intros (? & ? & [=])]|].
    split; [discriminate|]. intros Hin.
    repeat (apply elem_of_cons in Hin as [[=]|Hin]). inversion Hin.
Qed.

Lemma raised_exceptions_witness :
  (NotJson = NotJson /\ HTTPException = HTTPException) \/
  ((exists v, NotJson = Json v) /\ HTTPException = AttributeError).
Proof.
  apply (@raised_exceptions example_runtime Generate NotJson cpu_only HTTPException).
  reflexivity.
Defined.

Lemma generate_text_echoes_witness :
  let resp := @real_text_response example_runtime (PStr "hi") (PStr "mythomax") PNone in
  resp !! "model" = Some (PStr "mythomax") /\
  (GPU_AVAILABLE with_gpu = true -> resp !! "tokens_used" = Some PNone).
Proof.
  intros resp.
  assert (Hrun : @generate_text example_runtime
                   (Json (PDict {[ "prompt" := PStr "hi"; "model" := PStr "mythomax";
                                   "max_tokens" := PNone ]})) with_gpu
                 = (with_gpu, Ok resp)) by (vm_compute; reflexivity).
  pose proof (@generate_text_echoes example_runtime _ _ _ _ Hrun) as Hecho.
  vm_compute in Hecho |- *. exact Hecho.
Defined.

Lemma generate_image_echoes_witness :
  let resp := mock_image_response (PInt 7) (PStr "stable-diffusion-2.1") in
  resp !! "prompt" = Some (PInt 7) /\
  resp !! "model" = Some (PStr "stable-diffusion-2.1").
Proof.
  intros resp.
  assert (Hrun : generate_image (Json (PDict {[ "prompt" := PInt 7 ]})) cpu_only
                 = (cpu_only, Ok resp)) by (vm_compute; reflexivity).
  pose proof (generate_image_echoes _ _ _ _ Hrun) as Hecho.
  vm_compute in Hecho |- *. exact Hecho.
Defined.

Lemma mock_tokens_bound_witness :
  exists (s : string) (n : Z),
    (exists d, Json (PDict {[ "prompt" := PStr "three  short words" ]}) = Json (PDict d) /\
               dict_get d "prompt" (PStr "") = PStr s) /\
    n = 2 * Z.of_nat (length (split s)) /\
    Z.even n = true /\
    0 <= n <= 2 * Z.of_nat (String.length s).
Proof.
  destruct (@generate_text example_runtime
              (Json (PDict {[ "prompt" := PStr "three  short words" ]})) cpu_only)
    as [g' [resp|e]] eqn:Hrun; [|vm_compute in Hrun; discriminate].
  destruct (@mock_tokens_bound example_runtime _ cpu_only g' resp eq_refl Hrun)
    as (s & n & Hb & _ & Hn & Heven & Hbound).
  exists s, n. auto.
Defined.

End ServerMore.

(** ** More on the dialogue actions: what they say, return and raise *)

Module ActionsMore.
Import Py Eff Actions ActionsSpec.

(** The slot an action reads to decide between acting and asking, and the
    question it asks when the slot is unset or empty. *)
Definition asks_for (a : action) : option (string * string) :=
  match a with
  | ActionCreateTask =>
      Some ("task_name", "What task would you like me to create?")
  | ActionBrowseWebsite =>
      Some ("website_url", "Which website would you like me to browse?")
  | ActionChangeVoice =>
      Some ("voice_name",
            "Which voice would you like me to use? Available: rachel, josh, bella, adam, sam")
  | ActionBuildApp =>
      Some ("app_type",
            "What type of app would you like to build? (e.g., react, python, web, mobile)")
  | _ => None
  end.

Definition is_dict (v : pyval) : Prop := exists d, v = PDict d.

Definition tasks_request : http_request :=
  {| req_method := GET; req_url := tasks_url; req_json := None |}.

Definition chat_request (t : tracker) : http_request :=
  {| req_method := POST; req_url := chat_url;
     req_json := Some (chat_json (dict_get (latest_message t) "text" PNone)) |}.

Lemma append_assoc (a b c : string) : (a +:+ b) +:+ c = a +:+ (b +:+ c).
Proof.
  induction a as [|x a IH]; [reflexivity|].
  change (String x ((a +:+ b) +:+ c) = String x (a +:+ (b +:+ c))).
  by rewrite IH.
Qed.

(** The body of the chat request can be encoded exactly when the text of
    the message can. *)
Lemma chat_json_finite (user_message : pyval) :
  finite_json (chat_json user_message) = finite_json user_message.
Proof.
  destruct (finite_json user_message) eqn:Htext;
    vm_compute in Htext; vm_compute; rewrite Htext; reflexivity.
Qed.

Lemma append_empty_r (a : string) : a +:+ "" = a.
Proof.
  induction a as [|x a IH]; [reflexivity|].
  change (String x (a +:+ "") = String x a). by rewrite IH.
Qed.

Section Facts.
Context `{Runtime}.
Variable net : network.

#[local] Arguments finite_json : simpl never.
#[local] Arguments task_json : simpl never.
#[local] Arguments navigate_json : simpl never.
#[local] Arguments chat_json : simpl never.
#[local] Arguments image_json : simpl never.

(** X10.  A run of any action hands the dispatcher at most one message, and
    keeps the messages that were there. *)
Theorem at_most_one_message (a : action) (t : tracker) (w : world) :
  exists new,
    messages (run net a t w).1 = (messages w ++ new)%list /\ (length new <= 1)%nat.
Proof.
  destruct a; run_action; repeat split_input net; simpl;
    (eexists; split;
     [ first [ symmetry; apply app_nil_r | reflexivity ] | simpl; lia ]).
Qed.

(** X11.  The events an action returns: at most one, a [SlotSet] of
    [conversation_mode], [auto_speak] or [current_voice]; none at all from
    the seven actions other than the two toggles and the voice change. *)
Theorem returned_events (a : action) (t : tracker) (w : world) (events : list event) :
  (run net a t w).2 = Ok events ->
  (length events <= 1)%nat /\
  Forall (fun e => exists v,
            e = SlotSet "conversation_mode" v \/ e = SlotSet "auto_speak" v \/
            e = SlotSet "current_voice" v) events /\
  (a <> ActionToggleConversationMode -> a <> ActionToggleAutoSpeak ->
   a <> ActionChangeVoice -> events = []).
Proof.
  destruct a; run_action; repeat split_input net; simpl;
    intros [= <-]; (split; [simpl; lia|]);
    (split; [repeat constructor; eauto|]); intros; congruence.
Qed.

(** X12.  When an action raises, it is [ActionBrowseWebsite] or
    [ActionGenerateImage], the exception is an [AttributeError], and nothing
    was sent or said before it. *)
Theorem raises_only_attribute_error (a : action) (t : tracker) (w : world) (x : exn) :
  (run net a t w).2 = Raise x ->
  (a = ActionBrowseWebsite \/ a = ActionGenerateImage) /\
  x = AttributeError /\
  (run net a t w).1 = w.
Proof.
  destruct a; run_action; repeat split_input net; simpl;
    try discriminate; intros [= <-]; auto.
Qed.

(** X13.  [ActionGenerateImage] raises exactly when the latest message has
    no text or a text that is not a str; [ActionBrowseWebsite] exactly when
    [website_url] is true and not a str. *)
Theorem raises_iff (t : tracker) (w : world) :
  ((exists x, (run net ActionGenerateImage t w).2 = Raise x) <->
   forall s, dict_get (latest_message t) "text" PNone <> PStr s) /\
  ((exists x, (run net ActionBrowseWebsite t w).2 = Raise x) <->
   truthy (get_slot t "website_url") = true /\
   forall s, get_slot t "website_url" <> PStr s).
Proof.
  split.
  - run_action. destruct (dict_get (latest_message t) "text" PNone) eqn:Htext;
      simpl.
    5: { split.
         - intros [x Hx]. exfalso. revert Hx. repeat split_input net; discriminate.
         - intros Hne. exfalso. eapply Hne. reflexivity. }
    all: split; [intros _ s'; discriminate | intros _; eexists; reflexivity].
  - run_action. destruct (truthy (get_slot t "website_url")) eqn:Htruthy;
      destruct (get_slot t "website_url") eqn:Hslot;
      repeat split_input net; simpl;
      (split;
       [ intros [x Hx];
         first [ discriminate Hx | split; [reflexivity | intros s'; discriminate] ]
       | intros [Htrue Hne];
         first [ discriminate Htrue | eexists; reflexivity
               | exfalso; eapply Hne; reflexivity ] ]).
Qed.

(** X14.  When the slot an action asks for is unset or empty, the action
    sends no request, asks its question and returns no event. *)
Theorem asks_when_slot_empty (a : action) (slot question : string)
    (t : tracker) (w : world) :
  asks_for a = Some (slot, question) ->
  truthy (get_slot t slot) = false ->
  run net a t w =
    ({| messages := messages w ++ [PStr question]; requests := requests w |}, Ok []).
Proof.
  destruct a; intros [= <- <-] Hempty; run_action; rewrite Hempty; reflexivity.
Qed.

(** X15.  [ActionAIResponse] never raises: whatever the tracker holds and
    whatever the remote end does, it says exactly one message and returns no
    event.  It sends its one request, unless the text of the message holds a
    NaN or an infinity, which the encoder of the request refuses: nothing is
    sent then. *)
Theorem ai_response_always_answers (t : tracker) (w : world) :
  exists text,
    run net ActionAIResponse t w =
      ({| messages := messages w ++ [text];
          requests := requests w ++
            (if finite_json (dict_get (latest_message t) "text" PNone)
             then [chat_request t] else []) |}, Ok []).
Proof.
  unfold chat_request. run_action. rewrite chat_json_finite.
  destruct (finite_json (dict_get (latest_message t) "text" PNone));
    repeat split_input net; simpl; rewrite ?app_nil_r; eauto.
Qed.

(** X16.  When the text of the message can be encoded and the answer is ok
    and a JSON object, [ActionAIResponse] says the [result] of the answer as
    it came, of whatever type, and its apology when the answer has no
    [result].  When the text cannot be encoded (it holds a NaN or an
    infinity), it says that it has technical difficulties. *)
Theorem ai_response_relays_result (t : tracker) (w : world) (d : gmap string pyval) :
  net (chat_request t) = Reply true (Some (PDict d)) ->
  (finite_json (dict_get (latest_message t) "text" PNone) = true ->
   messages (run net ActionAIResponse t w).1 =
     (messages w ++
      [default (PStr "I apologize, but I couldn't generate a response.")
         (d !! "result")])%list) /\
  (finite_json (dict_get (latest_message t) "text" PNone) = false ->
   messages (run net ActionAIResponse t w).1 =
     (messages w ++
      [PStr "I'm experiencing some technical difficulties. Please try again later."])%list).
Proof.
  unfold chat_request. intros Hnet. run_action. rewrite chat_json_finite. split.
  - intros ->. rewrite Hnet. simpl.
    unfold dict_get. destruct (d !! "result"); reflexivity.
  - intros ->. reflexivity.
Qed.

(** X17.  With a voice name that is true, [ActionChangeVoice] sets
    [current_voice] to that name as it is, without checking it against the
    voices it lists, and leaves every other slot alone. *)
Theorem change_voice_sets_slot (t : tracker) (w : world) :
  truthy (get_slot t "voice_name") = true ->
  (run net ActionChangeVoice t w).2 =
    Ok [SlotSet "current_voice" (get_slot t "voice_name")] /\
  get_slot (after_run net ActionChangeVoice t) "current_voice" = get_slot t "voice_name" /\
  forall slot, slot <> "current_voice" ->
    get_slot (after_run net ActionChangeVoice t) slot = get_slot t slot.
Proof.
  intros Hvoice. unfold after_run. run_action. rewrite Hvoice. simpl.
  split; [reflexivity|]. unfold get_slot, dict_get. simpl. split.
  - by rewrite lookup_insert_eq.
  - intros slot Hslot. by rewrite lookup_insert_ne.
Qed.

Lemma task_line_ok_iff (acc : string) (task : pyval) :
  (exists r, task_line acc task = Ok r) <-> is_dict task.
Proof.
  unfold task_line, is_dict.
  destruct task; simpl; split; try (intros [? [=]]); eauto.
Qed.

Lemma task_line_extends (acc : string) (task : pyval) (r : string) :
  task_line acc task = Ok r -> exists line, r = acc +:+ line.
Proof.
  unfold task_line. destruct task; simpl; try discriminate.
  intros [= <-]. eexists. reflexivity.
Qed.

(** X18.  The listing of [ActionListTasks] is all or nothing: the lines are
    built exactly when every task is a JSON object, a single task of another
    type raises [AttributeError] for the whole list, and a listing that is
    built extends the header it started from. *)
Theorem task_lines_all_or_nothing (acc : string) (tasks : list pyval) :
  ((exists r, task_lines acc tasks = Ok r) <-> Forall is_dict tasks) /\
  (~ Forall is_dict tasks -> task_lines acc tasks = Raise AttributeError) /\
  (forall r, task_lines acc tasks = Ok r -> exists lines, r = acc +:+ lines).
Proof.
  revert acc. induction tasks as [|task rest IH]; intros acc.
  - simpl. split; [split; eauto|]. split; [intros Hno; destruct Hno; constructor|].
    intros r [= <-]. exists "". symmetry. apply append_empty_r.
  - cbn [task_lines]. destruct (task_line acc task) as [acc'|e] eqn:Hline.
    + assert (Hdict : is_dict task) by (apply (task_line_ok_iff acc); eauto).
      destruct (IH acc') as (Hiff & Hraise & Hext). split; [|split].
      * rewrite Hiff. split; [by constructor|by inversion 1].
      * intros Hno. apply Hraise. intros Hall. apply Hno. by constructor.
      * intros r Hr. destruct (Hext r Hr) as [lines ->].
        apply task_line_extends in Hline as [line ->].
        exists (line +:+ lines). apply append_assoc.
    + assert (Hnot : ~ is_dict task).
      { intros [r Hr]%(task_line_ok_iff acc). congruence. }
      split; [|split].
      * split; [intros [r [=]] | inversion 1; contradiction].
      * intros _. unfold task_line in Hline.
        destruct task; simpl in Hline; congruence.
      * discriminate.
Qed.

(** The line of one task and the lines of a list of tasks, as the f-string
    of the loop writes them: a mark, a space, the name, a line feed. *)
Definition listing_line (task : gmap string pyval) : string :=
  (if truthy (dict_get task "completed" PNone) then "✅" else "⏳")
  +:+ " " +:+ format_value (dict_get task "name" PNone) +:+ nl.

Definition listing_lines (tasks : list (gmap string pyval)) : string :=
  fold_right (fun task rest => listing_line task +:+ rest) "" tasks.

Lemma task_lines_dicts (acc : string) (tasks : list (gmap string pyval)) :
  task_lines acc (PDict <$> tasks) = Ok (acc +:+ listing_lines tasks).
Proof.
  revert acc. induction tasks as [|task tasks IH]; intros acc.
  - simpl. by rewrite append_empty_r.
  - change (task_lines (acc +:+ listing_line task) (PDict <$> tasks)
            = Ok (acc +:+ listing_line task +:+ listing_lines tasks)).
    rewrite IH. by rewrite append_assoc.
Qed.

(** X19.  On an ok answer holding a list of tasks that is not empty,
    [ActionListTasks] says one message.  When every task is a JSON object it
    is the header followed by one line per task, in order: the mark of its
    [completed] field, a space, its [name] ([None] when it has none) and a
    line feed.  Otherwise it is the fixed apology, and no task is listed. *)
Theorem list_tasks_message (t : tracker) (w : world) (task : pyval) (rest : list pyval) :
  net tasks_request = Reply true (Some (PList (task :: rest))) ->
  (forall tasks : list (gmap string pyval),
     task :: rest = PDict <$> tasks ->
     run net ActionListTasks t w =
       ({| messages := messages w ++
             [PStr ("📋 Your current tasks:" +:+ nl +:+ listing_lines tasks)];
           requests := requests w ++ [tasks_request] |}, Ok [])) /\
  (~ Forall is_dict (task :: rest) ->
   run net ActionListTasks t w =
     ({| messages := messages w ++ [PStr "I couldn't retrieve your tasks right now."];
         requests := requests w ++ [tasks_request] |}, Ok [])).
Proof.
  unfold tasks_request. intros Hnet. split.
  - intros tasks Htasks. run_action. rewrite Hnet.
    cbn [fst snd truthy iterate]. rewrite Htasks, task_lines_dicts.
    simpl. by rewrite append_assoc.
  - intros Hno. run_action. rewrite Hnet.
    cbn [fst snd truthy iterate].
    destruct (task_lines_all_or_nothing ("📋 Your current tasks:" +:+ nl) (task :: rest))
      as (_ & Hraise & _).
    rewrite (Hraise Hno). reflexivity.
Qed.

(** X20.  On an ok answer whose JSON is empty or otherwise false (an empty
    list, [null], 0), [ActionListTasks] says that there are no tasks yet. *)
Theorem list_tasks_none_yet (t : tracker) (w : world) (tasks : pyval) :
  net tasks_request = Reply true (Some tasks) ->
  truthy tasks = false ->
  run net ActionListTasks t w =
    ({| messages := messages w ++
          [PStr "You don't have any tasks yet. Would you like to create one?"];
        requests := requests w ++ [tasks_request] |}, Ok []).
Proof.
  unfold tasks_request. intros Hnet Hfalse. run_action. rewrite Hnet. simpl.
  rewrite Hfalse. reflexivity.
Qed.
End Facts.

(** Trackers and remote ends to run the actions on. *)
Definition josh : tracker :=
  {| slots := {[ "voice_name" := PStr "josh" ]}; latest_message := ∅ |}.

Definition answers (json : pyval) : network := fun _ => Reply true (Some json).

Definition two_tasks : list pyval :=
  [PDict {[ "name" := PStr "write"; "completed" := PBool true ]}; PDict ∅].

Lemma returned_events_witness :
  (length [SlotSet "current_voice" (PStr "josh")] <= 1)%nat /\
  Forall (fun e => exists v,
            e = SlotSet "conversation_mode" v \/ e = SlotSet "auto_speak" v \/
            e = SlotSet "current_voice" v) [SlotSet "current_voice" (PStr "josh")] /\
  (ActionChangeVoice <> ActionToggleConversationMode ->
   ActionChangeVoice <> ActionToggleAutoSpeak ->
   ActionChangeVoice <> ActionChangeVoice ->
   [SlotSet "current_voice" (PStr "josh")] = []).
Proof.
  apply (@returned_events example_runtime error_500 ActionChangeVoice josh init_world).
  reflexivity.
Defined.

Lemma raises_only_attribute_error_witness :
  (ActionGenerateImage = ActionBrowseWebsite \/ ActionGenerateImage = ActionGenerateImage) /\
  AttributeError = AttributeError /\
  (@run example_runtime error_500 ActionGenerateImage blank init_world).1 = init_world.
Proof.
  apply (@raises_only_attribute_error example_runtime error_500 ActionGenerateImage
           blank init_world AttributeError).
  reflexivity.
Defined.

Lemma asks_when_slot_empty_witness :
  @run example_runtime error_500 ActionCreateTask blank init_world =
    ({| messages := messages init_world ++ [PStr "What task would you like me to create?"];
        requests := requests init_world |}, Ok []).
Proof.
  apply (@asks_when_slot_empty example_runtime error_500 ActionCreateTask "task_name");
    reflexivity.
Defined.

Lemma ai_response_relays_result_witness :
  (finite_json (dict_get (latest_message blank) "text" PNone) = true ->
   messages (@run example_runtime (answers (PDict {[ "result" := PInt 42 ]}))
               ActionAIResponse blank init_world).1 =
     (messages init_world ++
      [default (PStr "I apologize, but I couldn't generate a response.")
         (({[ "result" := PInt 42 ]} : gmap string pyval) !! "result")])%list) /\
  (finite_json (dict_get (latest_message blank) "text" PNone) = false ->
   messages (@run example_runtime (answers (PDict {[ "result" := PInt 42 ]}))
               ActionAIResponse blank init_world).1 =
     (messages init_world ++
      [PStr "I'm experiencing some technical difficulties. Please try again later."])%list).
Proof.
  apply (@ai_response_relays_result example_runtime
           (answers (PDict {[ "result" := PInt 42 ]})) blank init_world).
  reflexivity.
Defined.

Lemma change_voice_sets_slot_witness :
  (@run example_runtime error_500 ActionChangeVoice josh init_world).2 =
    Ok [SlotSet "current_voice" (get_slot josh "voice_name")] /\
  get_slot (@after_run example_runtime error_500 ActionChangeVoice josh) "current_voice"
  = get_slot josh "voice_name" /\
  forall slot, slot <> "current_voice" ->
    get_slot (@after_run example_runtime error_500 ActionChangeVoice josh) slot
    = get_slot josh slot.
Proof.
  apply (@change_voice_sets_slot example_runtime error_500 josh init_world).
  reflexivity.
Defined.

Lemma list_tasks_message_witness :
  @run example_runtime (answers (PList two_tasks)) ActionListTasks blank init_world =
    ({| messages := [PStr ("📋 Your current tasks:" +:+ nl +:+
                           "✅ write" +:+ nl +:+ "⏳ None" +:+ nl)];
        requests := [tasks_request] |}, Ok []).
Proof.
  destruct (@list_tasks_message example_runtime (answers (PList two_tasks)) blank
              init_world (PDict {[ "name" := PStr "write"; "completed" := PBool true ]})
              [PDict ∅] eq_refl) as [Hlisting _].
  rewrite (Hlisting [{[ "name" := PStr "write"; "completed" := PBool true ]}; ∅] eq_refl).
  vm_compute. reflexivity.
Defined.

Lemma list_tasks_none_yet_witness :
  @run example_runtime (answers (PList [])) ActionListTasks blank init_world =
    ({| messages := messages init_world ++
          [PStr "You don't have any tasks yet. Would you like to create one?"];
        requests := requests init_world ++ [tasks_request] |}, Ok []).
Proof.
  apply (@list_tasks_none_yet example_runtime (answers (PList [])) blank init_world
           (PList [])); reflexivity.
Defined.

(** X27.  The ten actions answer to ten different names: the name the
    dialogue engine asks for selects one action. *)
Theorem names_distinct (a b : action) : name a = name b -> a = b.
Proof. destruct a, b; simpl; intros Hname; first [reflexivity | discriminate Hname]. Qed.

Lemma names_distinct_witness : ActionListTasks = ActionListTasks.
Proof. apply (names_distinct ActionListTasks ActionListTasks). reflexivity. Defined.

End ActionsMore.

(** ** More on the deployment script: installation, files and commands *)

Module DeployMore.
Import Py Eff Deploy DeploySpec.

(** The command [install_dependencies] runs for one entry of its list. *)
Definition pip_command (h : host) (dep : string) : list string :=
  [executable h; "-m"; "pip"; "install"] ++ split dep.

(** The commands a trace has run, in order. *)
Definition commands_run (t : list event) : list (list string) :=
  omap (fun e => match e with Run argv => Some argv | _ => None end) t.

(** Every event a piece of the script leaves satisfies [P]. *)
Definition emits {A} (P : event -> Prop) (c : script A) : Prop :=
  forall m, exists new, trace (c m).1 = (trace m ++ new)%list /\ Forall P new.

Section Emits.
Context {A B : Type} (P : event -> Prop).

Lemma emits_ret (a : A) : emits P (ret a : script A).
Proof. intros m. exists []. simpl. by rewrite app_nil_r. Qed.

Lemma emits_raise (e : exn) : emits P (raise e : script A).
Proof. intros m. exists []. simpl. by rewrite app_nil_r. Qed.

Lemma emits_bind (c : script A) (k : A -> script B) :
  emits P c -> (forall a, emits P (k a)) -> emits P (bind c k).
Proof.
  intros Hc Hk m. destruct (Hc m) as (new & Htr & Hall).
  unfold bind. destruct (c m) as [m' [a|e]]; simpl in *; [|eauto].
  destruct (Hk a m') as (new' & Htr' & Hall').
  exists (new ++ new')%list. split.
  - rewrite Htr', Htr. by rewrite app_assoc.
  - by apply Forall_app.
Qed.

Lemma emits_try (c : script A) (handler : exn -> script A) :
  emits P c -> (forall e, emits P (handler e)) -> emits P (try_except c handler).
Proof.
  intros Hc Hh m. destruct (Hc m) as (new & Htr & Hall).
  unfold try_except. destruct (c m) as [m' [a|e]]; simpl in *; [eauto|].
  destruct (Hh e m') as (new' & Htr' & Hall').
  exists (new ++ new')%list. split.
  - rewrite Htr', Htr. by rewrite app_assoc.
  - by apply Forall_app.
Qed.
End Emits.

Lemma emits_emit (P : event -> Prop) (e : event) : P e -> emits P (emit e).
Proof. intros He m. exists [e]. split; [reflexivity|]. by repeat constructor. Qed.

Lemma emits_change (P : event -> Prop) (f : gmap string string -> gmap string string) :
  emits P (change_files f).
Proof. intros m. exists []. simpl. by rewrite app_nil_r. Qed.

(** A piece of the script leaves the content of [path] as it found it. *)
Definition preserves {A} (path : string) (c : script A) : Prop :=
  forall m, files (c m).1 !! path = files m !! path.

Section Preserves.
Context {A B : Type} (path : string).

Lemma preserves_ret (a : A) : preserves path (ret a : script A).
Proof. intros m. reflexivity. Qed.

Lemma preserves_raise (e : exn) : preserves path (raise e : script A).
Proof. intros m. reflexivity. Qed.

Lemma preserves_bind (c : script A) (k : A -> script B) :
  preserves path c -> (forall a, preserves path (k a)) -> preserves path (bind c k).
Proof.
  intros Hc Hk m. specialize (Hc m). unfold bind.
  destruct (c m) as [m' [a|e]]; simpl in *; [|exact Hc].
  by rewrite Hk.
Qed.

Lemma preserves_try (c : script A) (handler : exn -> script A) :
  preserves path c -> (forall e, preserves path (handler e)) ->
  preserves path (try_except c handler).
Proof.
  intros Hc Hh m. specialize (Hc m). unfold try_except.
  destruct (c m) as [m' [a|e]]; simpl in *; [exact Hc|].
  by rewrite Hh.
Qed.
End Preserves.

Lemma preserves_emit (path : string) (e : event) : preserves path (emit e).
Proof. intros m. reflexivity. Qed.

Lemma preserves_change (path : string) (f : gmap string string -> gmap string string) :
  (forall fs, f fs !! path = fs !! path) -> preserves path (change_files f).
Proof. intros Hf m. apply Hf. Qed.

Lemma preserves_for_each {A} (path : string) (l : list A) (body : A -> script unit) :
  (forall x, preserves path (body x)) -> preserves path (for_each l body).
Proof.
  intros Hb. induction l as [|x l IH]; simpl.
  - apply preserves_ret.
  - apply preserves_bind; auto.
Qed.

Lemma emits_for_each {A} (P : event -> Prop) (l : list A) (body : A -> script unit) :
  (forall x, emits P (body x)) -> emits P (for_each l body).
Proof.
  intros Hb. induction l as [|x l IH]; simpl.
  - apply emits_ret.
  - apply emits_bind; auto.
Qed.

Lemma emits_for_each_in {A} (P : event -> Prop) (l : list A) (body : A -> script unit) :
  (forall x, x ∈ l -> emits P (body x)) -> emits P (for_each l body).
Proof.
  induction l as [|x l IH]; intros Hb; simpl.
  - apply emits_ret.
  - apply emits_bind; [apply Hb, list_elem_of_here|intros _].
    apply IH. intros y Hy. apply Hb. by apply list_elem_of_further.
Qed.

Section Facts.
Variable h : host.

(** One turn of the loop of [install_dependencies]. *)
Definition install_one (dep : string) : script unit :=
  Eff.bind (logger_info ("Installing: " +:+ dep)) (fun _ =>
    run_checked h ([executable h; "-m"; "pip"; "install"] ++ split dep)).

Definition installs (dep : string) : Prop :=
  subprocess_run h (pip_command h dep) = 0.

Lemma install_one_run (dep : string) (m : machine) :
  install_one dep m =
    ({| trace := trace m ++ [Log LInfo ("Installing: " +:+ dep); Run (pip_command h dep)];
        files := subprocess_files h (pip_command h dep) (files m) |},
     if subprocess_run h (pip_command h dep) =? 0
     then Ok tt
     else Raise (CalledProcessError (subprocess_run h (pip_command h dep))
                   (pip_command h dep))).
Proof.
  unfold install_one, logger_info, run_checked, bind, ret, raise, emit, change_files, modify.
  fold (pip_command h dep). cbn [fst snd trace files].
  destruct (subprocess_run h (pip_command h dep) =? 0);
    by rewrite <- app_assoc.
Qed.

Lemma install_step (dep : string) (deps : list string) (m : machine) :
  for_each (dep :: deps) install_one m =
    match install_one dep m with
    | (m', Ok _) => for_each deps install_one m'
    | (m', Raise e) => (m', Raise e)
    end.
Proof. reflexivity. Qed.

(** The loop over a list of dependencies: it runs the commands in order and
    stops at the first one whose exit status is not 0. *)
Lemma install_loop (deps : list string) (m : machine) :
  exists new,
    trace (for_each deps install_one m).1 = (trace m ++ new)%list /\
    ((for_each deps install_one m).2 = Ok tt /\
     Forall installs deps /\
     commands_run new = pip_command h <$> deps
     \/
     exists before dep after,
       deps = (before ++ dep :: after)%list /\
       Forall installs before /\
       ~ installs dep /\
       (for_each deps install_one m).2 =
         Raise (CalledProcessError (subprocess_run h (pip_command h dep))
                  (pip_command h dep)) /\
       commands_run new = pip_command h <$> (before ++ [dep])%list).
Proof.
  revert m. induction deps as [|dep deps IH]; intros m.
  - exists []. simpl. rewrite app_nil_r. split; [done|].
    left. by repeat split.
  - rewrite !install_step, !install_one_run.
    destruct (subprocess_run h (pip_command h dep) =? 0) eqn:Hcode.
    + apply Z.eqb_eq in Hcode.
      match goal with |- context [for_each deps install_one ?m'] =>
        destruct (IH m') as (new & Htr & Hcases)
      end.
      cbn [trace files] in Htr.
      exists (Log LInfo ("Installing: " +:+ dep) :: Run (pip_command h dep) :: new).
      split; [rewrite Htr; by rewrite <- !app_assoc|].
      destruct Hcases as [(Hok & Hall & Hrun) | (before & d & after & -> & Hall & Hbad & Hres & Hrun)].
      * left. split; [exact Hok|]. split; [by constructor|].
        change (pip_command h dep :: commands_run new
                = pip_command h dep :: (pip_command h <$> deps)).
        by rewrite Hrun.
      * right. exists (dep :: before), d, after.
        split; [reflexivity|]. split; [by constructor|]. split; [exact Hbad|].
        split; [exact Hres|].
        change (pip_command h dep :: commands_run new
                = pip_command h dep :: (pip_command h <$> (before ++ [d])%list)).
        by rewrite Hrun.
    + apply Z.eqb_neq in Hcode. cbn [fst snd trace files].
      exists [Log LInfo ("Installing: " +:+ dep); Run (pip_command h dep)].
      split; [reflexivity|].
      right. exists [], dep, deps. repeat split; auto.
Qed.

Lemma install_unfold (m : machine) :
  install_dependencies h m =
    for_each dependencies install_one
      {| trace := trace m ++ [Enter InstallDependencies;
                              Log LInfo "📦 Installing vision model dependencies..."];
         files := files m |}.
Proof.
  change (install_dependencies h m)
    with (for_each dependencies install_one
            {| trace := (trace m ++ [Enter InstallDependencies]) ++
                        [Log LInfo "📦 Installing vision model dependencies..."];
               files := files m |}).
  by rewrite <- app_assoc.
Qed.

(** X21.  [install_dependencies] succeeds exactly when the pip command of
    every dependency exits with status 0, and it has then run the eighteen
    commands in the order of the list. *)
Theorem install_succeeds_iff (m : machine) :
  ((install_dependencies h m).2 = Ok tt <-> Forall installs dependencies) /\
  ((install_dependencies h m).2 = Ok tt ->
   exists new,
     trace (install_dependencies h m).1 = (trace m ++ new)%list /\
     commands_run new = pip_command h <$> dependencies).
Proof.
  rewrite install_unfold.
  match goal with |- context [for_each dependencies install_one ?m'] =>
    destruct (install_loop dependencies m') as (new & Htr & Hcases)
  end.
  cbn [trace] in Htr.
  destruct Hcases as [(Hok & Hall & Hrun)
                     | (before & dep & after & Hsplit & Hall & Hbad & Hres & Hrun)].
  - split; [by split|]. intros _.
    exists (Enter InstallDependencies
            :: Log LInfo "📦 Installing vision model dependencies..." :: new).
    split; [rewrite Htr; by rewrite <- app_assoc|].
    exact Hrun.
  - assert (Hnot : ~ Forall installs dependencies).
    { rewrite Hsplit. intros [_ Hdep]%Forall_app. by inversion Hdep. }
    split; [split; [congruence|contradiction]|congruence].
Qed.

(** X22.  When [install_dependencies] fails, the exception names the first
    command whose exit status is not 0 and that status, the commands before
    it have run and succeeded, and no command after it is run. *)
Theorem install_stops_at_first_failure (m : machine) (e : exn) :
  (install_dependencies h m).2 = Raise e ->
  exists before dep after new,
    dependencies = (before ++ dep :: after)%list /\
    Forall installs before /\
    subprocess_run h (pip_command h dep) <> 0 /\
    e = CalledProcessError (subprocess_run h (pip_command h dep)) (pip_command h dep) /\
    trace (install_dependencies h m).1 = (trace m ++ new)%list /\
    commands_run new = pip_command h <$> (before ++ [dep])%list.
Proof.
  rewrite install_unfold.
  match goal with |- context [for_each dependencies install_one ?m'] =>
    destruct (install_loop dependencies m') as (new & Htr & Hcases)
  end.
  cbn [trace] in Htr.
  destruct Hcases as [(Hok & _)
                     | (before & dep & after & Hsplit & Hall & Hbad & Hres & Hrun)];
    [congruence|].
  intros Hraise. rewrite Hres in Hraise. injection Hraise as <-.
  exists before, dep, after,
    (Enter InstallDependencies
     :: Log LInfo "📦 Installing vision model dependencies..." :: new).
  split; [exact Hsplit|]. split; [exact Hall|]. split; [exact Hbad|].
  split; [reflexivity|]. split; [|exact Hrun].
  rewrite Htr. by rewrite <- app_assoc.
Qed.

Lemma total_edge : total (deploy_edge_models h).
Proof.
  unfold deploy_edge_models, logger_info.
  apply total_seq; [apply total_emit|].
  apply total_seq; [apply total_emit|].
  apply total_try. intros e. apply total_emit.
Qed.

(** X23.  [deploy_edge_models] never raises, whatever the libraries do: it
    catches its own failures.  The [except] clause [deploy_all] wraps around
    it is therefore never entered. *)
Theorem edge_models_never_raise (m : machine) (handler : exn -> script unit) :
  (deploy_edge_models h m).2 = Ok tt /\
  try_except
    (Eff.bind (deploy_edge_models h) (fun _ =>
       logger_info "✅ Edge models ready for mobile deployment"))
    handler m
  = Eff.bind (deploy_edge_models h) (fun _ =>
      logger_info "✅ Edge models ready for mobile deployment") m.
Proof.
  split; [apply total_edge|].
  assert (Hok : total (Eff.bind (deploy_edge_models h) (fun _ =>
                  logger_info "✅ Edge models ready for mobile deployment")))
    by (apply total_seq; [apply total_edge | apply total_emit]).
  specialize (Hok m). unfold try_except.
  destruct (Eff.bind _ _ m) as [m' [[]|e]]; [reflexivity|discriminate].
Qed.

(** An event of the installation: no library is called, and the script
    opens no file. *)
Definition installing (ev : event) : Prop :=
  (forall f args, ev <> Call f args) /\ (forall path, ev <> Open path).

Lemma emits_install : emits installing (install_dependencies h).
Proof.
  unfold install_dependencies, logger_info.
  apply emits_bind; [by apply emits_emit|intros _].
  apply emits_bind; [by apply emits_emit|intros _].
  apply emits_for_each. intros dep.
  apply emits_bind; [by apply emits_emit|intros _].
  unfold run_checked.
  apply emits_bind; [by apply emits_emit|intros _].
  apply emits_bind; [apply emits_change|intros _].
  destruct (_ =? _); [apply emits_ret | apply emits_raise].
Qed.

(** X25.  When the installation fails, [deploy_all] raises that same
    exception: [install_dependencies] is the only step entered, no library
    is called and the script opens no file. *)
Theorem failed_install_aborts (m : machine) (e : exn) :
  (install_dependencies h m).2 = Raise e ->
  (deploy_all h m).2 = Raise e /\
  exists new,
    trace (deploy_all h m).1 = (trace m ++ new)%list /\
    steps_entered new = [InstallDependencies] /\
    Forall installing new.
Proof.
  intros Hfail.
  destruct (install_failure_stops h m e Hfail) as (Hres & (new & Htr & Hsteps)).
  split; [exact Hres|].
  exists new. split; [exact Htr|]. split; [exact Hsteps|].
  revert Htr. rewrite deploy_all_split.
  rewrite seq_total by apply total_emit.
  set (m1 := (logger_info _ m).1).
  assert (Hfail1 : (install_dependencies h m1).2 = Raise e)
    by (rewrite <- Hfail; apply steady_install).
  rewrite (bind_raise _ _ _ _ Hfail1). cbn [fst].
  destruct (emits_install m1) as (new' & Htr' & Hall).
  rewrite Htr'.
  change (trace m1)
    with (trace m ++ [Log LInfo "🚀 Starting complete vision stack deployment..."])%list.
  rewrite <- app_assoc. intros <-%app_inv_head.
  constructor; [done|exact Hall].
Qed.

(** What the script does to the host: the commands it runs are pip
    installations of the dependencies of its list, with the interpreter that
    runs the script, and the one file it opens is the template. *)
Definition pip_only (ev : event) : Prop :=
  (forall argv, ev = Run argv ->
     exists dep, dep ∈ dependencies /\ argv = pip_command h dep) /\
  (forall path, ev = Open path -> path = api_path).

Lemma emits_call (f : string) (args : list string) : emits pip_only (call h f args).
Proof.
  unfold call. apply emits_bind; [by apply emits_emit|intros _].
  apply emits_bind; [apply emits_change|intros _].
  destruct (library h f args); [apply emits_raise | apply emits_ret].
Qed.

Lemma emits_write_file (content : string) :
  emits pip_only (write_file h api_path content).
Proof.
  unfold write_file. apply emits_bind; [apply emits_emit; by split; [|intros ? [= <-]]|intros _].
  destruct (open_write h api_path); [apply emits_change | apply emits_raise |].
  apply emits_bind; [apply emits_change | intros _; apply emits_raise].
Qed.

Lemma emits_log (l : level) (message : string) : emits pip_only (emit (Log l message)).
Proof. by apply emits_emit. Qed.

Lemma emits_enter (s : step) : emits pip_only (emit (Enter s)).
Proof. by apply emits_emit. Qed.

Ltac emits_facts :=
  unfold logger_info, logger_warning, logger_error;
  repeat first
    [ apply emits_call | apply emits_log | apply emits_enter | apply emits_write_file
    | apply emits_bind | apply emits_try
    | match goal with |- forall _, _ => intro end ].

Lemma emits_pip_install : emits pip_only (install_dependencies h).
Proof.
  unfold install_dependencies, logger_info.
  apply emits_bind; [apply emits_enter|intros _].
  apply emits_bind; [apply emits_log|intros _].
  apply emits_for_each_in. intros dep Hdep.
  apply emits_bind; [apply emits_log|intros _].
  unfold run_checked.
  apply emits_bind;
    [|intros _; apply emits_bind; [apply emits_change|intros _];
      destruct (_ =? _); [apply emits_ret | apply emits_raise]].
  apply emits_emit. split; [|done]. intros argv [= <-]. by exists dep.
Qed.

Lemma emits_main : emits pip_only (main h).
Proof.
  unfold main, init. apply emits_bind; [|intros _].
  - apply emits_bind; [by apply emits_emit|intros _].
    apply emits_bind;
      [destruct (mkdir h models_dir); [apply emits_raise | apply emits_ret]|intros _].
    destruct (cuda h) as [[device_name memory]|]; emits_facts.
  - unfold deploy_all. apply emits_bind; [emits_facts|intros _].
    apply emits_bind; [apply emits_pip_install|intros _].
    unfold deploy_qwen_vl, deploy_ocr_stack, deploy_edge_models, create_unified_api.
    emits_facts.
Qed.

(** X26.  The only commands the script runs, from start to end and whatever
    happens, are pip installations of the dependencies of its list, with the
    interpreter that runs the script. *)
Theorem runs_only_pip (m : machine) :
  exists new,
    trace (main h m).1 = (trace m ++ new)%list /\
    Forall (fun argv => exists dep, dep ∈ dependencies /\ argv = pip_command h dep)
      (commands_run new).
Proof.
  destruct (emits_main m) as (new & Htr & Hall). exists new. split; [exact Htr|].
  clear Htr. induction Hall as [|ev new Hev _ IH]; [constructor|].
  destruct ev; try exact IH.
  change (Forall (fun argv => exists dep, dep ∈ dependencies /\ argv = pip_command h dep)
            (argv :: commands_run new)).
  constructor; [by apply Hev|exact IH].
Qed.

Ltac preserves_facts :=
  unfold logger_info, logger_warning, logger_error;
  repeat first
    [ apply preserves_emit | apply preserves_ret | apply preserves_raise
    | apply preserves_change; solve [auto | intros; by apply lookup_insert_ne]
    | apply preserves_for_each | apply preserves_bind | apply preserves_try
    | match goal with |- forall _, _ => intro end ].

(** X24.  Over a whole run, whatever happens, the one file the script itself
    opens is the template; and a path other than the template that the pip
    commands and the library calls leave alone keeps its content. *)
Theorem writes_only_template (m : machine) :
  (exists new,
     trace (main h m).1 = (trace m ++ new)%list /\
     Forall (fun ev => forall path, ev = Open path -> path = "/opt/models/vision_api.py")
       new) /\
  (forall path,
     path <> "/opt/models/vision_api.py" ->
     (forall argv fs, subprocess_files h argv fs !! path = fs !! path) ->
     (forall f args fs, library_files h f args fs !! path = fs !! path) ->
     files (main h m).1 !! path = files m !! path).
Proof.
  split.
  - destruct (emits_main m) as (new & Htr & Hall). exists new. split; [exact Htr|].
    eapply Forall_impl; [exact Hall|]. intros ev [_ Hopen]. exact Hopen.
  - intros path Hpath Hrun Hlib.
    assert (Hmain : preserves path (main h)); [|apply Hmain].
    unfold main, init, deploy_all, install_dependencies, deploy_qwen_vl,
      deploy_ocr_stack, deploy_edge_models, create_unified_api, call, run_checked,
      write_file.
    fold api_path.
    repeat first
      [ progress preserves_facts
      | match goal with
        | |- preserves _ (match ?x with _ => _ end) => destruct x
        | |- preserves _ (if ?x then _ else _) => destruct x
        end ].
Qed.
End Facts.

(** A host where the third dependency does not install. *)
Definition no_accelerate : host :=
  {| executable := "python3";
     cuda := None;
     subprocess_run := fun argv => if bool_decide ("accelerate" ∈ argv) then 1 else 0;
     subprocess_files := fun argv files => <["site-packages/" +:+ default "" (last argv) := ""]> files;
     library := fun _ _ => None;
     library_files := fun _ _ files => files;
     mkdir := fun _ => None;
     open_write := fun _ => Written |}.

Lemma install_stops_at_first_failure_witness :
  exists before dep after new,
    dependencies = (before ++ dep :: after)%list /\
    Forall (installs no_accelerate) before /\
    subprocess_run no_accelerate (pip_command no_accelerate dep) <> 0 /\
    CalledProcessError 1 ["python3"; "-m"; "pip"; "install"; "accelerate"] =
      CalledProcessError (subprocess_run no_accelerate (pip_command no_accelerate dep))
        (pip_command no_accelerate dep) /\
    trace (install_dependencies no_accelerate init_machine).1
    = (trace init_machine ++ new)%list /\
    commands_run new = pip_command no_accelerate <$> (before ++ [dep])%list.
Proof.
  apply (install_stops_at_first_failure no_accelerate init_machine).
  vm_compute. reflexivity.
Defined.

Lemma failed_install_aborts_witness :
  (deploy_all no_accelerate init_machine).2 =
    Raise (CalledProcessError 1 ["python3"; "-m"; "pip"; "install"; "accelerate"]) /\
  exists new,
    trace (deploy_all no_accelerate init_machine).1 = (trace init_machine ++ new)%list /\
    steps_entered new = [InstallDependencies] /\
    Forall installing new.
Proof.
  apply (failed_install_aborts no_accelerate init_machine).
  vm_compute. reflexivity.
Defined.

End DeployMore.
